(** * fom-tools: schema-directed deserialization of OMT documents

    A shallow embedding of [fom-tools-lib/src/lib.rs].  The generic XML tree
    is the one of the [xmltree] crate ([Element], [XMLNode]); every
    [impl From<&Element> for T] becomes a function [T_from : Element ->
    outcome T], where [outcome] records whether the Rust code returns a
    value or panics (every [panic!] and every [unwrap] on an [Err]).

    Strings are modelled as ASCII strings: [trim] removes the ASCII
    characters that Rust's [char::is_whitespace] accepts, and
    [to_uppercase] maps [a-z] to [A-Z]. *)

From Stdlib Require Import Ascii String List Bool NArith Lia.
From stdpp Require Import base gmap strings list.
Import ListNotations.
Open Scope string_scope.
Set Warnings "-register-all".

(* ================================================================= *)
(** ** The xmltree element tree *)

Inductive Element : Type :=
  | mkElement (name : string) (attributes : gmap string string)
              (children : list XMLNode)
with XMLNode : Type :=
  | XElement (e : Element)
  | XText (s : string)
  | XCData (s : string)
  | XComment (s : string)
  | XProcessingInstruction (target : string) (data : option string).

Definition el_name (e : Element) : string :=
  match e with mkElement n _ _ => n end.
Definition el_attributes (e : Element) : gmap string string :=
  match e with mkElement _ a _ => a end.
Definition el_children (e : Element) : list XMLNode :=
  match e with mkElement _ _ c => c end.

(** [xmltree]'s [ParseError]: what [Element::parse] reports on a stream it
    cannot read as XML. *)
Inductive ParseError : Type :=
  | MalformedXml (msg : string)
  | CannotParse.

(** Rust's [Result]. *)
Inductive result (A E : Type) : Type :=
  | Ok (a : A)
  | Err (e : E).
Arguments Ok {A E} a.
Arguments Err {A E} e.

(* ================================================================= *)
(** ** Panics

    A conversion either returns its value or panics with a message.  The
    monad threads the first panic through the rest of the computation, as
    unwinding does in Rust: struct fields are evaluated in the order they
    are written, [map(..).collect()] in document order. *)

Inductive outcome (A : Type) : Type :=
  | Returned (a : A)
  | Panicked (msg : string).
Arguments Returned {A} a.
Arguments Panicked {A} msg.

Global Instance outcome_ret : MRet outcome := fun _ a => Returned a.
Global Instance outcome_bind : MBind outcome :=
  fun _ _ f m => match m with Returned a => f a | Panicked s => Panicked s end.

Definition panicked {A} (o : outcome A) : bool :=
  match o with Panicked _ => true | Returned _ => false end.

(** [Option::unwrap]-style helper used by the [_or_panic] accessors. *)
Definition or_panic {A} (o : option A) (panic_message : string) : outcome A :=
  match o with Some a => Returned a | None => Panicked panic_message end.

(* ================================================================= *)
(** ** Strings *)

(** [char::is_whitespace] on ASCII: tab, LF, VT, FF, CR and space. *)
Definition is_whitespace (c : ascii) : bool :=
  let n := nat_of_ascii c in ((9 <=? n) && (n <=? 13))%nat || (n =? 32)%nat.

Fixpoint trim_start (s : string) : string :=
  match s with
  | EmptyString => EmptyString
  | String c r => if is_whitespace c then trim_start r else s
  end.

Fixpoint string_rev (s : string) : string :=
  match s with
  | EmptyString => EmptyString
  | String c r => string_rev r ++ String c EmptyString
  end.

Definition trim_end (s : string) : string := string_rev (trim_start (string_rev s)).

(** [str::trim]. *)
Definition trim (s : string) : string := trim_end (trim_start s).

Definition ascii_to_upper (c : ascii) : ascii :=
  let n := nat_of_ascii c in
  if ((97 <=? n) && (n <=? 122))%nat then ascii_of_nat (n - 32) else c.

(** [str::to_uppercase] on ASCII text. *)
Fixpoint to_uppercase (s : string) : string :=
  match s with
  | EmptyString => EmptyString
  | String c r => String (ascii_to_upper c) (to_uppercase r)
  end.

(** [bool::from_str]: exactly ["true"] and ["false"]. *)
Definition parse_bool (s : string) : option bool :=
  if String.eqb s "true" then Some true
  else if String.eqb s "false" then Some false
  else None.

Fixpoint parse_digits (s : string) (acc : N) : option N :=
  match s with
  | EmptyString => Some acc
  | String c r =>
      let n := nat_of_ascii c in
      if ((48 <=? n) && (n <=? 57))%nat
      then parse_digits r (acc * 10 + N.of_nat (n - 48))%N
      else None
  end.

(** [u8::from_str] / [u16::from_str] (bits = 8 / 16): an optional [+], then
    at least one decimal digit, with the value below [2^bits]. *)
Definition parse_uint (bits : N) (s : string) : option N :=
  let digits := match s with String "+"%char r => r | _ => s end in
  match digits with
  | EmptyString => None
  | _ => match parse_digits digits 0 with
         | Some v => if (v <? 2 ^ bits)%N then Some v else None
         | None => None
         end
  end.

(** The panic of [Result::unwrap] on a failed [parse]. *)
Definition unwrap_parse {A} (o : option A) (err : string) : outcome A :=
  or_panic o ("called `Result::unwrap()` on an `Err` value: " ++ err).

(** A Rust [match] of a string against literal arms, with a catch-all arm. *)
Fixpoint match_token {A} (text : string) (arms : list (string * A))
    (default : string -> outcome A) : outcome A :=
  match arms with
  | [] => default text
  | (k, v) :: rest => if String.eqb text k then Returned v else match_token text rest default
  end.

(* ================================================================= *)
(** ** Element tree accessors *)

(** [Element::get_child(name)]: the first child element with that name. *)
Fixpoint find_child (cs : list XMLNode) (n : string) : option Element :=
  match cs with
  | [] => None
  | XElement c :: rest => if String.eqb (el_name c) n then Some c else find_child rest n
  | _ :: rest => find_child rest n
  end.

Definition get_child (e : Element) (n : string) : option Element :=
  find_child (el_children e) n.

(** [Element::get_text]: the concatenation of the text and CDATA children,
    [None] when there is none. *)
Definition node_text (x : XMLNode) : option string :=
  match x with XText s | XCData s => Some s | _ => None end.

Definition get_text (e : Element) : option string :=
  match omap node_text (el_children e) with
  | [] => None
  | ts => Some (String.concat "" ts)
  end.

(** [get_element_text]. *)
Definition get_element_text (e : Element) : string :=
  match get_text e with Some text => trim text | None => "" end.

(** [get_text_of_child_element]. *)
Definition get_text_of_child_element (root : Element) (child_element_name : string)
    : option string :=
  match get_child root child_element_name with
  | Some e => Some (get_element_text e)
  | None => None
  end.

(** [get_text_of_attribute]. *)
Definition get_text_of_attribute (element : Element) (attribute_name : string)
    : option string :=
  el_attributes element !! attribute_name.

(** [get_text_of_child_element_or_panic]. *)
Definition get_text_of_child_element_or_panic (root : Element)
    (child_element_name panic_message : string) : outcome string :=
  or_panic (get_text_of_child_element root child_element_name) panic_message.

(** [get_text_of_attribute_or_panic]. *)
Definition get_text_of_attribute_or_panic (element : Element)
    (attribute_name panic_message : string) : outcome string :=
  or_panic (get_text_of_attribute element attribute_name) panic_message.

(** [get_child_element_as_type], for a converter [T::from]. *)
Definition get_child_element_as_type {T} (from : Element -> outcome T)
    (root : Element) (child_element_name : string) : outcome (option T) :=
  match get_child root child_element_name with
  | Some e => t ← from e; Returned (Some t)
  | None => Returned None
  end.

(** [get_attribute_as_type], for a converter [T::from : &String -> T]. *)
Definition get_attribute_as_type {T} (from : string -> outcome T)
    (element : Element) (attribute_name : string) : outcome (option T) :=
  match el_attributes element !! attribute_name with
  | Some v => t ← from v; Returned (Some t)
  | None => Returned None
  end.

(** [get_child_element_as_type_or_panic]. *)
Definition get_child_element_as_type_or_panic {T} (from : Element -> outcome T)
    (root : Element) (child_element_name panic_message : string) : outcome T :=
  o ← get_child_element_as_type from root child_element_name;
  or_panic o panic_message.

(** [get_attribute_as_type_or_panic]. *)
Definition get_attribute_as_type_or_panic {T} (from : string -> outcome T)
    (element : Element) (attribute_name panic_message : string) : outcome T :=
  o ← get_attribute_as_type from element attribute_name;
  or_panic o panic_message.

(** The child elements with a given name, in document order (the
    [filter] of the two [get_text_of_child_elements*] functions). *)
Fixpoint elements_named (cs : list XMLNode) (n : string) : list Element :=
  match cs with
  | [] => []
  | XElement c :: rest =>
      if String.eqb (el_name c) n then c :: elements_named rest n else elements_named rest n
  | _ :: rest => elements_named rest n
  end.

Definition child_elements (root : Element) (n : string) : list Element :=
  elements_named (el_children root) n.

(** [get_text_of_child_elements]. *)
Definition get_text_of_child_elements (root : Element) (child_element_name : string)
    : list string :=
  map get_element_text (child_elements root child_element_name).

(** [get_text_of_child_elements_as_type]: [map(T::from).collect()]. *)
Fixpoint collect {T} (from : Element -> outcome T) (es : list Element) : outcome (list T) :=
  match es with
  | [] => Returned []
  | e :: rest => t ← from e; ts ← collect from rest; Returned (t :: ts)
  end.

Definition get_text_of_child_elements_as_type {T} (from : Element -> outcome T)
    (root : Element) (child_element_name : string) : outcome (list T) :=
  collect from (child_elements root child_element_name).

(** The [if v.is_empty() { None } else { Some(v) }] blocks. *)
Definition none_if_empty {T} (v : list T) : option (list T) :=
  match v with [] => None | _ => Some v end.

(** The inline [if let Some(e) = e.get_child(..) { get_element_text(e) }]
    conversions read an element as its trimmed text. *)
Definition text_from (e : Element) : outcome string := Returned (get_element_text e).

(* The inline [if let Some(e) = e.get_child(n) { T::from(e) } else { panic!(m) }]
   of the source is [get_child_element_as_type_or_panic T_from e n m], and the
   inline [if let .. { Some(T::from(e)) } else { None }] is
   [get_child_element_as_type T_from e n]: both are the same code. *)

(* ================================================================= *)
(** ** modelIdentification *)

Inductive ModelType : Type := FOM | SOM.

(** The arms of the [match] in [ModelType::from]. *)
Definition ModelType_arms : list (string * ModelType) :=
  [("FOM", FOM); ("SOM", SOM)].

Definition ModelType_from (e : Element) : outcome ModelType :=
  let text := get_element_text e in
  match_token text ModelType_arms
    (fun text => Panicked ("Unknown 'modelidentification -> type': " ++ text)).

Inductive SecurityClassificationType : Type :=
  | Unclassified | Confidential | Secret | TopSecret
  | SecurityClassificationOther (s : string).

(** The arms of the [match] in [SecurityClassificationType::from]. *)
Definition SecurityClassificationType_arms : list (string * SecurityClassificationType) :=
  [("Unclassified", Unclassified); ("Confidential", Confidential); ("Secret", Secret); ("Top Secret", TopSecret)].

Definition SecurityClassificationType_from (e : Element) : outcome SecurityClassificationType :=
  let text := get_element_text e in
  match_token text SecurityClassificationType_arms
    (fun text => Returned (SecurityClassificationOther text)).

Inductive ApplicationDomainType : Type :=
  | Analysis | Training | TestAndEvaluation | Engineering | Acquisition
  | ApplicationDomainOther (s : string).

(** The arms of the [match] in [ApplicationDomainType::from]. *)
Definition ApplicationDomainType_arms : list (string * ApplicationDomainType) :=
  [("Analysis", Analysis); ("Training", Training); ("Test and Evaluation", TestAndEvaluation); ("Engineering", Engineering); ("Acquisition", Acquisition)].

Definition ApplicationDomainType_from (e : Element) : outcome ApplicationDomainType :=
  let text := get_element_text e in
  match_token text ApplicationDomainType_arms
    (fun text => Returned (ApplicationDomainOther text)).

Record KeywordType : Type := {
  kw_taxonomy : option string;
  kw_keyword_value : string }.

Definition KeywordType_from (e : Element) : outcome KeywordType :=
  taxonomy ← get_child_element_as_type text_from e "taxonomy";
  keyword_value ← get_child_element_as_type_or_panic text_from e "keywordValue"
    "No 'modelIdentification -> keyword -> keywordValue' element";
  Returned {| kw_taxonomy := taxonomy; kw_keyword_value := keyword_value |}.

Inductive PocTypeType : Type :=
  | PrimaryAuthor | Contributor | Proponent | Sponsor | ReleaseAuthority | TechnicalPoc.

(** The arms of the [match] in [PocTypeType::from]. *)
Definition PocTypeType_arms : list (string * PocTypeType) :=
  [("Primary author", PrimaryAuthor); ("Contributor", Contributor); ("Proponent", Proponent); ("Sponsor", Sponsor); ("Release authority", ReleaseAuthority); ("Technical POC", TechnicalPoc)].

Definition PocTypeType_from (e : Element) : outcome PocTypeType :=
  let text := get_element_text e in
  match_token text PocTypeType_arms
    (fun text => Panicked ("Unknown 'modelIdentification -> poc -> pocType': " ++ text)).

Record PocType : Type := {
  poc_type : PocTypeType;
  poc_name : option string;
  poc_org : option string;
  poc_telephones : option (list string);
  poc_emails : option (list string) }.

Definition PocType_from (e : Element) : outcome PocType :=
  poc_type ← get_child_element_as_type_or_panic PocTypeType_from e "pocType"
    "No 'modelIdentification -> poc -> pocType' found";
  poc_name ← get_child_element_as_type text_from e "pocName";
  poc_org ← get_child_element_as_type text_from e "pocOrg";
  let telephones := get_text_of_child_elements e "pocTelephone" in
  let emails := get_text_of_child_elements e "pocEmail" in
  Returned {| poc_type := poc_type; poc_name := poc_name; poc_org := poc_org;
              poc_telephones := none_if_empty telephones;
              poc_emails := none_if_empty emails |}.

Record IdReferenceType : Type := {
  ref_reference_type : string;
  ref_identification : string }.

Definition IdReferenceType_from (e : Element) : outcome IdReferenceType :=
  reference_type ← get_child_element_as_type_or_panic text_from e "type"
    "No 'modelIdentification -> reference -> type' found";
  identification ← get_child_element_as_type_or_panic text_from e "identification"
    "No 'modelIdentification -> reference -> identification' found";
  Returned {| ref_reference_type := reference_type; ref_identification := identification |}.

Inductive GlyphTypeType : Type := Bitmap | Jpg | Gif | Png | Tiff.

(** The arms of the [match] in [GlyphTypeType::from]. *)
Definition GlyphTypeType_arms : list (string * GlyphTypeType) :=
  [("BITMAP", Bitmap); ("JPG", Jpg); ("GIF", Gif); ("PNG", Png); ("TIFF", Tiff)].

(** [impl From<&String> for GlyphTypeType]: the attribute is upper-cased
    before the match; the panic message shows the original text. *)
Definition GlyphTypeType_from (attribute : string) : outcome GlyphTypeType :=
  match_token (to_uppercase attribute) GlyphTypeType_arms
    (fun _ => Panicked ("Unknown 'modelIdentification -> glyph -> type': " ++ attribute)).

Record GlyphType : Type := {
  glyph_href : option string;
  glyph_type : GlyphTypeType;
  glyph_height : N;
  glyph_width : N;
  glyph_alt : string }.

Definition GlyphType_from (e : Element) : outcome GlyphType :=
  let href := get_text_of_child_element e "href" in
  glyph_type ← get_attribute_as_type_or_panic GlyphTypeType_from e "type"
    "No 'modelIdentification -> glyph[type]' found";
  height_text ← get_text_of_attribute_or_panic e "height"
    "No 'modelIdentification -> glyph[height]' found";
  height ← unwrap_parse (parse_uint 16 height_text) "ParseIntError";
  width_text ← get_text_of_attribute_or_panic e "width"
    "No 'modelIdentification -> glyph[width]' found";
  width ← unwrap_parse (parse_uint 16 width_text) "ParseIntError";
  alt ← get_text_of_attribute_or_panic e "alt"
    "No 'modelIdentification -> glyph[alt]' found";
  Returned {| glyph_href := href; glyph_type := glyph_type; glyph_height := height;
              glyph_width := width; glyph_alt := alt |}.

Record ModelIdentificationType : Type := {
  mi_name : string;
  mi_model_type : ModelType;
  mi_version : string;
  mi_modification_date : string;
  mi_security_classification : SecurityClassificationType;
  mi_release_restriction : option (list string);
  mi_purpose : option string;
  mi_application_domain : option ApplicationDomainType;
  mi_description : string;
  mi_use_limitation : option string;
  mi_use_history : option (list string);
  mi_keywords : option (list KeywordType);
  mi_poc : list PocType;
  mi_references : option (list IdReferenceType);
  mi_other : option string;
  mi_glyph : option GlyphType }.

Definition ModelIdentificationType_from (e : Element) : outcome ModelIdentificationType :=
  name ← get_child_element_as_type_or_panic text_from e "name"
    "No 'modelIdentification -> name' element";
  model_type ← get_child_element_as_type_or_panic ModelType_from e "type"
    "No 'modelIdentification -> type' element";
  version ← get_child_element_as_type_or_panic text_from e "version"
    "No 'modelIdentification -> version' element";
  modification_date ← get_child_element_as_type_or_panic text_from e "modificationDate"
    "No 'modelIdentification -> modificationDate' element";
  security_classification ← get_child_element_as_type_or_panic
    SecurityClassificationType_from e "securityClassification"
    "No 'modelIdentification -> securityClassification' element";
  let release_restrictions := get_text_of_child_elements e "releaseRestriction" in
  purpose ← get_child_element_as_type text_from e "purpose";
  application_domain ← get_child_element_as_type ApplicationDomainType_from e "applicationDomain";
  description ← get_child_element_as_type_or_panic text_from e "description"
    "No 'modelIdentification -> description' element";
  let use_limitation := get_text_of_child_element e "useLimitation" in
  let use_history := get_text_of_child_elements e "useHistory" in
  keywords ← get_text_of_child_elements_as_type KeywordType_from e "keyword";
  poc ← get_text_of_child_elements_as_type PocType_from e "poc";
  references ← get_text_of_child_elements_as_type IdReferenceType_from e "reference";
  other ← get_child_element_as_type text_from e "other";
  glyph ← get_child_element_as_type GlyphType_from e "glyph";
  Returned {| mi_name := name; mi_model_type := model_type; mi_version := version;
              mi_modification_date := modification_date;
              mi_security_classification := security_classification;
              mi_release_restriction := none_if_empty release_restrictions;
              mi_purpose := purpose; mi_application_domain := application_domain;
              mi_description := description; mi_use_limitation := use_limitation;
              mi_use_history := none_if_empty use_history;
              mi_keywords := none_if_empty keywords; mi_poc := poc;
              mi_references := none_if_empty references; mi_other := other;
              mi_glyph := glyph |}.

(* ================================================================= *)
(** ** serviceUtilization *)

Record ServiceInfoType : Type := {
  si_section : string;
  si_is_callback : bool;
  si_is_used : bool }.

Definition ServiceInfoType_from (e : Element) : outcome ServiceInfoType :=
  section ← or_panic (el_attributes e !! "section")
    "No 'objectModel -> serviceUtilization -> section' found";
  is_callback ← (a ← or_panic (el_attributes e !! "isCallback")
                   "No 'objectModel -> serviceUtilization -> isCallback' found";
                 unwrap_parse (parse_bool a) "ParseBoolError");
  is_used ← (a ← or_panic (el_attributes e !! "isUsed")
               "No 'objectModel -> serviceUtilization -> isUsed' found";
             unwrap_parse (parse_bool a) "ParseBoolError");
  Returned {| si_section := section; si_is_callback := is_callback; si_is_used := is_used |}.

(** [ServiceUtiliizationType]: only [connect] and [disconnect] (the source
    marks the rest with [// ... and the rest]). *)
Record ServiceUtiliizationType : Type := {
  su_connect : ServiceInfoType;
  su_disconnect : ServiceInfoType }.

Definition ServiceUtiliizationType_from (e : Element) : outcome ServiceUtiliizationType :=
  connect ← get_child_element_as_type_or_panic ServiceInfoType_from e "connect"
    "No 'objectModel -> serviceUtilization -> connect' found";
  disconnect ← get_child_element_as_type_or_panic ServiceInfoType_from e "disconnect"
    "No 'objectModel -> serviceUtilization -> connect' found";
  Returned {| su_connect := connect; su_disconnect := disconnect |}.

(* ================================================================= *)
(** ** objects *)

Inductive SharingType : Type := Publish | Subscribe | PublishSubscribe | Neither.

(** The arms of the [match] in [SharingType::from]. *)
Definition SharingType_arms : list (string * SharingType) :=
  [("Publish", Publish); ("Subscribe", Subscribe); ("PublishSubscribe", PublishSubscribe); ("Neither", Neither)].

Definition SharingType_from (e : Element) : outcome SharingType :=
  let text := get_element_text e in
  match_token text SharingType_arms
    (fun text => Panicked ("Unknown sharing type: " ++ text)).

Record ReferenceType : Type := { ref_value : string }.

Definition ReferenceType_from (e : Element) : outcome ReferenceType :=
  Returned {| ref_value := get_element_text e |}.

Inductive UpdateType : Type := Static | Periodic | Conditional | UpdateNa.

(** The arms of the [match] in [UpdateType::from]. *)
Definition UpdateType_arms : list (string * UpdateType) :=
  [("Static", Static); ("Periodic", Periodic); ("Conditional", Conditional); ("NA", UpdateNa)].

Definition UpdateType_from (e : Element) : outcome UpdateType :=
  let text := get_element_text e in
  match_token text UpdateType_arms
    (fun text => Panicked ("Unknown UpdateType: " ++ text)).

Inductive OwnershipType : Type := Divest | Acquire | DivestAcquire | NoTransfer.

(** The arms of the [match] in [OwnershipType::from]. *)
Definition OwnershipType_arms : list (string * OwnershipType) :=
  [("Divest", Divest); ("Acquire", Acquire); ("DivestAcquire", DivestAcquire); ("NoTransfer", NoTransfer)].

Definition OwnershipType_from (e : Element) : outcome OwnershipType :=
  let text := get_element_text e in
  match_token text OwnershipType_arms
    (fun text => Panicked ("Unknown OwnershipType: " ++ text)).

Inductive OrderType : Type := Receive | TimeStamp.

(** The arms of the [match] in [OrderType::from]. *)
Definition OrderType_arms : list (string * OrderType) :=
  [("Receive", Receive); ("TimeStamp", TimeStamp)].

Definition OrderType_from (e : Element) : outcome OrderType :=
  let text := get_element_text e in
  match_token text OrderType_arms
    (fun text => Panicked ("Unknown OrderType: " ++ text)).

Record AttributeType : Type := {
  at_name : string;
  at_data_type : ReferenceType;
  at_update_type : UpdateType;
  at_update_condition : option string;
  at_onwership : OwnershipType;
  at_sharing : SharingType;
  at_dimensions : option (list ReferenceType);
  at_transportation : ReferenceType;
  at_order : OrderType;
  at_semantics : option string }.

Definition AttributeType_from (e : Element) : outcome AttributeType :=
  name ← get_child_element_as_type_or_panic text_from e "name"
    "No 'objectModel -> objects -> objectClass -> attribute -> name' found";
  data_type ← get_child_element_as_type_or_panic ReferenceType_from e "dataType"
    "No 'objectModel -> objects -> objectClass -> attribute -> dataType' found";
  update_type ← get_child_element_as_type_or_panic UpdateType_from e "updateType"
    "No 'objectModel -> objects -> objectClass -> attribute -> updateType' found";
  update_condition ← get_child_element_as_type text_from e "updateCondition";
  onwership ← get_child_element_as_type_or_panic OwnershipType_from e "ownership"
    "No 'objectModel -> objects -> objectClass -> attribute -> ownership' found";
  sharing ← get_child_element_as_type_or_panic SharingType_from e "sharing"
    "No 'objectModel -> objects -> objectClass -> attribute -> sharing' found";
  dimensions ← (match get_child e "dimensions" with
                | Some e => ds ← get_text_of_child_elements_as_type ReferenceType_from e "dimension";
                            Returned (Some ds)
                | None => Returned None
                end);
  transportation ← get_child_element_as_type_or_panic ReferenceType_from e "transportation"
    "No 'objectModel -> objects -> objectClass -> attribute -> transportation' found";
  order ← get_child_element_as_type_or_panic OrderType_from e "order"
    "No 'objectModel -> objects -> objectClass -> attribute -> order' found";
  semantics ← get_child_element_as_type text_from e "semantics";
  Returned {| at_name := name; at_data_type := data_type; at_update_type := update_type;
              at_update_condition := update_condition; at_onwership := onwership;
              at_sharing := sharing; at_dimensions := dimensions;
              at_transportation := transportation; at_order := order;
              at_semantics := semantics |}.

Inductive ObjectClassType : Type := mkObjectClassType {
  oc_name : string;
  oc_sharing : SharingType;
  oc_semantics : option string;
  oc_attributes : option (list AttributeType);
  oc_object_classes : option (list ObjectClassType) }.

(** [impl From<&Element> for ObjectClassType].  The nested classes are the
    children named ["objectClasses"]: [get_text_of_child_elements_as_type(e,
    "objectClasses")] with [T::from] the recursive call, written as an inner
    [fix] over the children so that the recursion is structural. *)
Fixpoint ObjectClassType_from (e : Element) : outcome ObjectClassType :=
  let fix nested (cs : list XMLNode) : outcome (list ObjectClassType) :=
    match cs with
    | [] => Returned []
    | XElement c :: rest =>
        if String.eqb (el_name c) "objectClasses"
        then (t ← ObjectClassType_from c; ts ← nested rest; Returned (t :: ts))
        else nested rest
    | _ :: rest => nested rest
    end in
  match e with
  | mkElement _ _ children =>
    name ← get_child_element_as_type_or_panic text_from e "name"
      "No 'objectModel -> objects -> objectClass -> name' found";
    sharing ← get_child_element_as_type_or_panic SharingType_from e "sharing"
      "No 'objectModel -> objects -> objectClass -> sharing' found";
    semantics ← get_child_element_as_type text_from e "semantics";
    attributes ← get_text_of_child_elements_as_type AttributeType_from e "attribute";
    object_classes ← nested children;
    Returned {| oc_name := name; oc_sharing := sharing; oc_semantics := semantics;
                oc_attributes := none_if_empty attributes;
                oc_object_classes := none_if_empty object_classes |}
  end.

Record ObjectsType : Type := { root_object_class : ObjectClassType }.

Definition ObjectsType_from (e : Element) : outcome ObjectsType :=
  root ← get_child_element_as_type_or_panic ObjectClassType_from e "objectClass"
    "No 'objectModel -> objects -> objectClass' found";
  Returned {| root_object_class := root |}.

(* ================================================================= *)
(** ** interactions *)

Record ParameterType : Type := {
  par_name : string;
  par_data_type : ReferenceType;
  par_semantics : option string }.

Definition ParameterType_from (e : Element) : outcome ParameterType :=
  name ← get_text_of_child_element_or_panic e "name"
    "No 'interactions -> interactionClass -> parameter -> name' found";
  data_type ← get_child_element_as_type_or_panic ReferenceType_from e "dataType"
    "No 'interactions -> interactionClass -> parameter -> dataType' found";
  let semantics := get_text_of_child_element e "semantics" in
  Returned {| par_name := name; par_data_type := data_type; par_semantics := semantics |}.

Inductive InteractionClassType : Type := mkInteractionClassType {
  ic_name : string;
  ic_sharing : SharingType;
  ic_dimensions : option (list ReferenceType);
  ic_transportation : ReferenceType;
  ic_order : OrderType;
  ic_semantics : option string;
  ic_parameters : option (list ParameterType);
  ic_interaction_classes : option (list InteractionClassType) }.

(** [impl From<&Element> for InteractionClassType]; nested classes are the
    children named ["interactionClass"]. *)
Fixpoint InteractionClassType_from (e : Element) : outcome InteractionClassType :=
  let fix nested (cs : list XMLNode) : outcome (list InteractionClassType) :=
    match cs with
    | [] => Returned []
    | XElement c :: rest =>
        if String.eqb (el_name c) "interactionClass"
        then (t ← InteractionClassType_from c; ts ← nested rest; Returned (t :: ts))
        else nested rest
    | _ :: rest => nested rest
    end in
  match e with
  | mkElement _ _ children =>
    name ← get_text_of_child_element_or_panic e "name"
      "No 'objectModel -> interactions -> interactionClass -> name' found";
    sharing ← get_child_element_as_type_or_panic SharingType_from e "sharing"
      "No 'objectModel -> interactions -> interactionClass -> sharing' found";
    dimensions ← get_text_of_child_elements_as_type ReferenceType_from e "dimension";
    transportation ← get_child_element_as_type_or_panic ReferenceType_from e "transportation"
      "No 'objectModel -> interactions -> interactionClass -> transportation' found";
    order ← get_child_element_as_type_or_panic OrderType_from e "order"
      "No 'objectModel -> interactions -> interactionClass -> order";
    let semantics := get_text_of_child_element e "semantics" in
    parameters ← get_text_of_child_elements_as_type ParameterType_from e "parameter";
    interaction_classes ← nested children;
    Returned {| ic_name := name; ic_sharing := sharing;
                ic_dimensions := none_if_empty dimensions;
                ic_transportation := transportation; ic_order := order;
                ic_semantics := semantics; ic_parameters := none_if_empty parameters;
                ic_interaction_classes := none_if_empty interaction_classes |}
  end.

Record InteractionsType : Type := { interactions : InteractionClassType }.

Definition InteractionsType_from (e : Element) : outcome InteractionsType :=
  i ← get_child_element_as_type_or_panic InteractionClassType_from e "interactionClass"
    "No 'objectModel -> interactions -> interactionClass' found";
  Returned {| interactions := i |}.

(* ================================================================= *)
(** ** dimensions, time, tags *)

Record DimensionsType : Type := mkDimensionsType {}.

Definition DimensionsType_from (_e : Element) : outcome DimensionsType :=
  Returned mkDimensionsType.

Record TimeTypeType : Type := {
  tt_data_type : ReferenceType;
  tt_semantics : option string }.

Definition TimeTypeType_from (e : Element) : outcome TimeTypeType :=
  data_type ← get_child_element_as_type_or_panic ReferenceType_from e "dataType"
    "No 'time type -> dataType' found";
  let semantics := get_text_of_child_element e "semantics" in
  Returned {| tt_data_type := data_type; tt_semantics := semantics |}.

Record TimeType : Type := {
  time_stamp : option TimeTypeType;
  lookahead : option TimeTypeType }.

Definition TimeType_from (e : Element) : outcome TimeType :=
  ts ← get_child_element_as_type TimeTypeType_from e "timeStamp";
  la ← get_child_element_as_type TimeTypeType_from e "lookahead";
  Returned {| time_stamp := ts; lookahead := la |}.

Record TagType : Type := {
  tag_data_type : ReferenceType;
  tag_semantics : option string }.

Definition TagType_from (e : Element) : outcome TagType :=
  data_type ← get_child_element_as_type_or_panic ReferenceType_from e "dataType"
    "No 'tag type -> dataType' found";
  let semantics := get_text_of_child_element e "semantics" in
  Returned {| tag_data_type := data_type; tag_semantics := semantics |}.

Record TagsType : Type := {
  update_reflect_tag : option TagType;
  send_receive_tag : option TagType;
  delete_remove_tag : option TagType;
  divestiture_request_tag : option TagType;
  divestiture_completion_tag : option TagType;
  acquisition_request_tag : option TagType;
  request_update_tag : option TagType }.

Definition TagsType_from (e : Element) : outcome TagsType :=
  t1 ← get_child_element_as_type TagType_from e "update_reflect_tag";
  t2 ← get_child_element_as_type TagType_from e "send_receive_tag";
  t3 ← get_child_element_as_type TagType_from e "delete_remove_tag";
  t4 ← get_child_element_as_type TagType_from e "divestiture_request_tag";
  t5 ← get_child_element_as_type TagType_from e "divestiture_completion_tag";
  t6 ← get_child_element_as_type TagType_from e "acquisition_request_tag";
  t7 ← get_child_element_as_type TagType_from e "request_update_tag";
  Returned {| update_reflect_tag := t1; send_receive_tag := t2; delete_remove_tag := t3;
              divestiture_request_tag := t4; divestiture_completion_tag := t5;
              acquisition_request_tag := t6; request_update_tag := t7 |}.

(* ================================================================= *)
(** ** synchronizations, transportations *)

Inductive CapabilityType : Type := Register | Achieve | RegisterAchieve | NoSynch | CapabilityNa.

(** The arms of the [match] in [CapabilityType::from]. *)
Definition CapabilityType_arms : list (string * CapabilityType) :=
  [("Register", Register); ("Achieve", Achieve); ("RegisterAchieve", RegisterAchieve); ("NoSynch", NoSynch); ("NA", CapabilityNa)].

Definition CapabilityType_from (e : Element) : outcome CapabilityType :=
  let text := get_element_text e in
  match_token text CapabilityType_arms
    (fun text => Panicked ("Unknown capability: " ++ text)).

Record SynchronizationPointType : Type := {
  sp_label : string;
  sp_data_type : option ReferenceType;
  sp_capability : CapabilityType;
  sp_semantics : option string }.

Definition SynchronizationPointType_from (e : Element) : outcome SynchronizationPointType :=
  label ← get_text_of_child_element_or_panic e "label"
    "No 'synchronizationPoint -> label' found";
  data_type ← get_child_element_as_type ReferenceType_from e "dataType";
  capability ← get_child_element_as_type_or_panic CapabilityType_from e "capability"
    "No 'synchronizationPoint -> capability' found";
  let semantics := get_text_of_child_element e "semantics" in
  Returned {| sp_label := label; sp_data_type := data_type; sp_capability := capability;
              sp_semantics := semantics |}.

Record SynchronizationsType : Type := {
  synchronization_points : option (list SynchronizationPointType) }.

Definition SynchronizationsType_from (e : Element) : outcome SynchronizationsType :=
  ps ← get_text_of_child_elements_as_type SynchronizationPointType_from e "synchronizationPoint";
  Returned {| synchronization_points := none_if_empty ps |}.

Inductive ReliableType : Type := Yes | No.

(** The arms of the [match] in [ReliableType::from]. *)
Definition ReliableType_arms : list (string * ReliableType) :=
  [("Yes", Yes); ("No", No)].

Definition ReliableType_from (e : Element) : outcome ReliableType :=
  let text := get_element_text e in
  match_token text ReliableType_arms
    (fun text => Panicked ("Unexpected reliable type: " ++ text)).

Record TransportationType : Type := {
  tr_name : string;
  tr_reliable : ReliableType;
  tr_semantics : option string }.

Definition TransportationType_from (e : Element) : outcome TransportationType :=
  name ← get_text_of_child_element_or_panic e "name" "No 'transportation -> name' found";
  reliable ← get_child_element_as_type_or_panic ReliableType_from e "reliable"
    "No 'transportation -> reliable' found";
  let semantics := get_text_of_child_element e "semantics" in
  Returned {| tr_name := name; tr_reliable := reliable; tr_semantics := semantics |}.

Record TransportationsType : Type := {
  transportations : option (list TransportationType) }.

Definition TransportationsType_from (e : Element) : outcome TransportationsType :=
  ts ← get_text_of_child_elements_as_type TransportationType_from e "transportation";
  Returned {| transportations := none_if_empty ts |}.

(* ================================================================= *)
(** ** switches *)

Record SwitchType : Type := { is_enabled : bool }.

(** [impl From<&String> for SwitchType]: [attribute.parse().unwrap()]. *)
Definition SwitchType_from (attribute : string) : outcome SwitchType :=
  b ← unwrap_parse (parse_bool attribute) "ParseBoolError";
  Returned {| is_enabled := b |}.

Inductive ResignSwitchType : Type :=
  | UnconditionallyDivestAttributes | DeleteObjects | CancelPendingOwnershipAcquisitions
  | DeleteObjectsThenDivest | CancelThenDeleteThenDivest | NoAction.

(** The arms of the [match] in [ResignSwitchType::from]. *)
Definition ResignSwitchType_arms : list (string * ResignSwitchType) :=
  [("UnconditionallyDivestAttributes", UnconditionallyDivestAttributes); ("DeleteObjects", DeleteObjects); ("CancelPendingOwnershipAcquisitions", CancelPendingOwnershipAcquisitions); ("DeleteObjectsThenDivest", DeleteObjectsThenDivest); ("CancelThenDeleteThenDivest", CancelThenDeleteThenDivest); ("NoAction", NoAction)].

Definition ResignSwitchType_from (attribute : string) : outcome ResignSwitchType :=
  match_token attribute ResignSwitchType_arms
    (fun _ => Panicked ("Unknown resign switch type: " ++ attribute)).

Record SwitchesType : Type := {
  auto_provide : SwitchType;
  convey_region_designator_sets : SwitchType;
  convey_producing_federate : SwitchType;
  attribute_scope_advisory : SwitchType;
  attribute_relevance_advisory : SwitchType;
  object_class_relevance_advisory : SwitchType;
  interaction_relevance_advisory : SwitchType;
  service_reporting : SwitchType;
  exception_reporting : SwitchType;
  delay_subscription_evaluation : SwitchType;
  automatic_resign_action : ResignSwitchType }.

Definition SwitchesType_from (e : Element) : outcome SwitchesType :=
  s1 ← get_attribute_as_type_or_panic SwitchType_from e "auto_provide"
    "No 'switch -> auto_provide' found";
  s2 ← get_attribute_as_type_or_panic SwitchType_from e "convey_region_designator_sets"
    "No 'switch -> convey_region_designator_sets' found";
  s3 ← get_attribute_as_type_or_panic SwitchType_from e "convey_producing_federate"
    "No 'switch -> convey_producing_federate' found";
  s4 ← get_attribute_as_type_or_panic SwitchType_from e "attribute_scope_advisory"
    "No 'switch -> attribute_scope_advisory' found";
  s5 ← get_attribute_as_type_or_panic SwitchType_from e "attribute_relevance_advisory"
    "No 'switch -> attribute_relevance_advisory' found";
  s6 ← get_attribute_as_type_or_panic SwitchType_from e "object_class_relevance_advisory"
    "No 'switch -> object_class_relevance_advisory' found";
  s7 ← get_attribute_as_type_or_panic SwitchType_from e "interaction_relevance_advisory"
    "No 'switch -> interaction_relevance_advisory' found";
  s8 ← get_attribute_as_type_or_panic SwitchType_from e "service_reporting"
    "No 'switch -> service_reporting' found";
  s9 ← get_attribute_as_type_or_panic SwitchType_from e "exception_reporting"
    "No 'switch -> exception_reporting' found";
  s10 ← get_attribute_as_type_or_panic SwitchType_from e "delay_subscription_evaluation"
    "No 'switch -> delay_subscription_evaluation' found";
  s11 ← get_attribute_as_type_or_panic ResignSwitchType_from e "automatic_resign_action"
    "No 'switch -> automatic_resign_action' found";
  Returned {| auto_provide := s1; convey_region_designator_sets := s2;
              convey_producing_federate := s3; attribute_scope_advisory := s4;
              attribute_relevance_advisory := s5; object_class_relevance_advisory := s6;
              interaction_relevance_advisory := s7; service_reporting := s8;
              exception_reporting := s9; delay_subscription_evaluation := s10;
              automatic_resign_action := s11 |}.

(* ================================================================= *)
(** ** updateRates *)

Record RateType : Type := { rate_value : string }.

Definition RateType_from (e : Element) : outcome RateType :=
  Returned {| rate_value := get_element_text e |}.

Record UpdateRateType : Type := {
  ur_name : string;
  ur_rate : RateType;
  ur_semantics : option string }.

Definition UpdateRateType_from (e : Element) : outcome UpdateRateType :=
  name ← get_text_of_child_element_or_panic e "name" "No 'updateRate -> name' found";
  rate ← get_child_element_as_type_or_panic RateType_from e "rate" "No 'updateRate -> rate' found";
  let semantics := get_text_of_child_element e "semantics" in
  Returned {| ur_name := name; ur_rate := rate; ur_semantics := semantics |}.

Record UpdateRatesType : Type := { update_rates : option (list UpdateRateType) }.

Definition UpdateRatesType_from (e : Element) : outcome UpdateRatesType :=
  rs ← get_text_of_child_elements_as_type UpdateRateType_from e "updateRate";
  Returned {| update_rates := none_if_empty rs |}.

(* ================================================================= *)
(** ** dataTypes *)

Record SizeType : Type := { size : N }.

(** [get_element_text(e).parse().unwrap()] into a [u8]. *)
Definition SizeType_from (e : Element) : outcome SizeType :=
  s ← unwrap_parse (parse_uint 8 (get_element_text e)) "ParseIntError";
  Returned {| size := s |}.

Inductive EndianType : Type := Big | Little.

(** The arms of the [match] in [EndianType::from]. *)
Definition EndianType_arms : list (string * EndianType) :=
  [("Big", Big); ("Little", Little)].

Definition EndianType_from (e : Element) : outcome EndianType :=
  let text := get_element_text e in
  match_token text EndianType_arms
    (fun text => Panicked ("Unknown endian type: " ++ text)).

Record BasicDataType : Type := {
  bd_name : string;
  bd_size : SizeType;
  bd_interpretation : string;
  bd_endian : EndianType;
  bd_encoding : string }.

Definition BasicDataType_from (e : Element) : outcome BasicDataType :=
  name ← get_text_of_child_element_or_panic e "name" "No 'basicData -> name' found";
  sz ← get_child_element_as_type_or_panic SizeType_from e "size" "No 'basicData -> size' found";
  interpretation ← get_text_of_child_element_or_panic e "interpretation"
    "No 'basicData -> interpretation' found";
  endian ← get_child_element_as_type_or_panic EndianType_from e "endian"
    "No 'basicData -> endian' found";
  encoding ← get_text_of_child_element_or_panic e "encoding" "No 'basicData -> encoding' found";
  Returned {| bd_name := name; bd_size := sz; bd_interpretation := interpretation;
              bd_endian := endian; bd_encoding := encoding |}.

Record BasicDataRepresentationsType : Type := { basic_datas : option (list BasicDataType) }.

Definition BasicDataRepresentationsType_from (e : Element)
    : outcome BasicDataRepresentationsType :=
  l ← get_text_of_child_elements_as_type BasicDataType_from e "basicData";
  Returned {| basic_datas := none_if_empty l |}.

Record SimpleDataType : Type := {
  sd_name : string;
  sd_representation : ReferenceType;
  sd_units : option string;
  sd_resolution : option string;
  sd_accuracy : option string;
  sd_semantics : option string }.

Definition SimpleDataType_from (e : Element) : outcome SimpleDataType :=
  name ← get_text_of_child_element_or_panic e "name" "No 'simpleData -> name' found";
  representation ← get_child_element_as_type_or_panic ReferenceType_from e "representation"
    "No 'simpleData -> representation' found";
  Returned {| sd_name := name; sd_representation := representation;
              sd_units := get_text_of_child_element e "units";
              sd_resolution := get_text_of_child_element e "resolution";
              sd_accuracy := get_text_of_child_element e "accuracy";
              sd_semantics := get_text_of_child_element e "semantics" |}.

Record SimpleDataTypesType : Type := { simple_datas : option (list SimpleDataType) }.

Definition SimpleDataTypesType_from (e : Element) : outcome SimpleDataTypesType :=
  l ← get_text_of_child_elements_as_type SimpleDataType_from e "simpleData";
  Returned {| simple_datas := none_if_empty l |}.

Record EnumeratorType : Type := {
  en_name : string;
  en_value : list string }.

Definition EnumeratorType_from (e : Element) : outcome EnumeratorType :=
  name ← get_text_of_child_element_or_panic e "name"
    "No 'enumeratedData -> enumerator -> name' found";
  Returned {| en_name := name; en_value := get_text_of_child_elements e "value" |}.

Record EnumeratedDataType : Type := {
  ed_name : string;
  ed_representation : ReferenceType;
  ed_semantics : option string;
  ed_enumerators : option (list EnumeratorType) }.

Definition EnumeratedDataType_from (e : Element) : outcome EnumeratedDataType :=
  name ← get_text_of_child_element_or_panic e "name" "No 'enumeratedData -> name' found";
  representation ← get_child_element_as_type_or_panic ReferenceType_from e "representation"
    "No 'enumeratedData -> representation' found";
  let semantics := get_text_of_child_element e "semantics" in
  enumerators ← get_text_of_child_elements_as_type EnumeratorType_from e "enumerator";
  Returned {| ed_name := name; ed_representation := representation;
              ed_semantics := semantics; ed_enumerators := none_if_empty enumerators |}.

Record EnumeratedDataTypesType : Type := {
  enumerated_datas : option (list EnumeratedDataType) }.

Definition EnumeratedDataTypesType_from (e : Element) : outcome EnumeratedDataTypesType :=
  l ← get_text_of_child_elements_as_type EnumeratedDataType_from e "enumeratedData";
  Returned {| enumerated_datas := none_if_empty l |}.

Inductive ArrayDataTypeEncodingType : Type := HlaFixedArray | HlaVariableArray.

(** The arms of the [match] in [ArrayDataTypeEncodingType::from]. *)
Definition ArrayDataTypeEncodingType_arms : list (string * ArrayDataTypeEncodingType) :=
  [("HLAfixedArray", HlaFixedArray); ("HLAvariableArray", HlaVariableArray)].

Definition ArrayDataTypeEncodingType_from (e : Element) : outcome ArrayDataTypeEncodingType :=
  let text := get_element_text e in
  match_token text ArrayDataTypeEncodingType_arms
    (fun text => Panicked ("Unknown array data type encoding: " ++ text)).

Record ArrayDataType : Type := {
  ad_name : string;
  ad_data_type : ReferenceType;
  ad_cardinality : string;
  ad_encoding : ArrayDataTypeEncodingType;
  ad_semantics : option string }.

Definition ArrayDataType_from (e : Element) : outcome ArrayDataType :=
  name ← get_text_of_child_element_or_panic e "name" "No 'arrayData -> name' found";
  data_type ← get_child_element_as_type_or_panic ReferenceType_from e "representation"
    "No 'arrayData -> representation' found";
  cardinality ← get_text_of_child_element_or_panic e "cardinality"
    "No 'arrayData -> cardinality' found";
  encoding ← get_child_element_as_type_or_panic ArrayDataTypeEncodingType_from e "encoding"
    "No 'arrayData -> encoding' found";
  let semantics := get_text_of_child_element e "semantics" in
  Returned {| ad_name := name; ad_data_type := data_type; ad_cardinality := cardinality;
              ad_encoding := encoding; ad_semantics := semantics |}.

Record ArrayDataTypesType : Type := { array_datas : option (list ArrayDataType) }.

Definition ArrayDataTypesType_from (e : Element) : outcome ArrayDataTypesType :=
  l ← get_text_of_child_elements_as_type ArrayDataType_from e "arrayData";
  Returned {| array_datas := none_if_empty l |}.

Inductive FixedRecordEncodingType : Type := HlaFixedRecord.

(** The arms of the [match] in [FixedRecordEncodingType::from]. *)
Definition FixedRecordEncodingType_arms : list (string * FixedRecordEncodingType) :=
  [("HLAfixedRecord", HlaFixedRecord)].

Definition FixedRecordEncodingType_from (e : Element) : outcome FixedRecordEncodingType :=
  let text := get_element_text e in
  match_token text FixedRecordEncodingType_arms
    (fun text => Panicked ("Unknown fixed record encoding: " ++ text)).

Record FieldType : Type := {
  fd_name : string;
  fd_data_type : ReferenceType;
  fd_semantics : option string }.

Definition FieldType_from (e : Element) : outcome FieldType :=
  name ← get_text_of_child_element_or_panic e "name"
    "No 'fixedRecrodData -> field -> name' found";
  data_type ← get_child_element_as_type_or_panic ReferenceType_from e "dataType"
    "No 'fixedRecordData -> field -> dataType' found";
  let semantics := get_text_of_child_element e "semantics" in
  Returned {| fd_name := name; fd_data_type := data_type; fd_semantics := semantics |}.

Record FixedRecordDataType : Type := {
  fr_name : string;
  fr_encoding : FixedRecordEncodingType;
  fr_semantics : option string;
  fr_fields : option (list FieldType) }.

Definition FixedRecordDataType_from (e : Element) : outcome FixedRecordDataType :=
  name ← get_text_of_child_element_or_panic e "name" "No 'fixedRecordData -> name' found";
  encoding ← get_child_element_as_type_or_panic FixedRecordEncodingType_from e "encoding"
    "No 'fixedRecordData -> encoding' found";
  let semantics := get_text_of_child_element e "semantics" in
  fields ← get_text_of_child_elements_as_type FieldType_from e "field";
  Returned {| fr_name := name; fr_encoding := encoding; fr_semantics := semantics;
              fr_fields := none_if_empty fields |}.

Record FixedRecordDataTypesType : Type := {
  fixed_record_datas : option (list FixedRecordDataType) }.

Definition FixedRecordDataTypesType_from (e : Element) : outcome FixedRecordDataTypesType :=
  l ← get_text_of_child_elements_as_type FixedRecordDataType_from e "fixedRecordData";
  Returned {| fixed_record_datas := none_if_empty l |}.

Record AlternativeType : Type := {
  alt_enumerator : string;
  alt_name : option string;
  alt_data_type : option ReferenceType;
  alt_semantics : option string }.

Definition AlternativeType_from (e : Element) : outcome AlternativeType :=
  enumerator ← get_text_of_child_element_or_panic e "enumerator"
    "No 'variantRecordData -> alternative -> enumerator' found";
  let name := get_text_of_child_element e "name" in
  data_type ← get_child_element_as_type ReferenceType_from e "dataType";
  let semantics := get_text_of_child_element e "semantics" in
  Returned {| alt_enumerator := enumerator; alt_name := name; alt_data_type := data_type;
              alt_semantics := semantics |}.

Inductive VariantRecordEncodingType : Type := HlaVariantRecord.

(** The arms of the [match] in [VariantRecordEncodingType::from]. *)
Definition VariantRecordEncodingType_arms : list (string * VariantRecordEncodingType) :=
  [("HLAvariantRecord", HlaVariantRecord)].

Definition VariantRecordEncodingType_from (e : Element) : outcome VariantRecordEncodingType :=
  let text := get_element_text e in
  match_token text VariantRecordEncodingType_arms
    (fun text => Panicked ("Unknown variant record encoding: " ++ text)).

Record VariantRecordDataType : Type := {
  vr_name : string;
  vr_discriminant : string;
  vr_data_type : ReferenceType;
  vr_alternatives : option (list AlternativeType);
  vr_encoding : VariantRecordEncodingType;
  vr_semantics : option string }.

Definition VariantRecordDataType_from (e : Element) : outcome VariantRecordDataType :=
  name ← get_text_of_child_element_or_panic e "name" "No 'variantRecordData -> name' found";
  discriminant ← get_text_of_child_element_or_panic e "discriminant"
    "No 'variantRecordData -> discriminant' found";
  data_type ← get_child_element_as_type_or_panic ReferenceType_from e "dataType"
    "No 'variantRecordData -> dataType' found";
  alternatives ← get_text_of_child_elements_as_type AlternativeType_from e "alternative";
  encoding ← get_child_element_as_type_or_panic VariantRecordEncodingType_from e "encoding"
    "No 'variantRecordData -> encoding' found";
  let semantics := get_text_of_child_element e "semantics" in
  Returned {| vr_name := name; vr_discriminant := discriminant; vr_data_type := data_type;
              vr_alternatives := none_if_empty alternatives; vr_encoding := encoding;
              vr_semantics := semantics |}.

Record VariantRecordDataTypesType : Type := {
  variant_record_datas : option (list VariantRecordDataType) }.

Definition VariantRecordDataTypesType_from (e : Element) : outcome VariantRecordDataTypesType :=
  l ← get_text_of_child_elements_as_type VariantRecordDataType_from e "variantRecordData";
  Returned {| variant_record_datas := none_if_empty l |}.

Record DataTypesType : Type := {
  basic_data_representations : BasicDataRepresentationsType;
  simple_data_types : SimpleDataTypesType;
  enumerated_data_types : EnumeratedDataTypesType;
  array_data_types : ArrayDataTypesType;
  fixed_record_data_types : FixedRecordDataTypesType;
  variand_record_data_types : VariantRecordDataTypesType }.

Definition DataTypesType_from (e : Element) : outcome DataTypesType :=
  b ← get_child_element_as_type_or_panic BasicDataRepresentationsType_from e
    "basicDataRepresentations" "No 'dataTypes -> basicDataRepresentations' found";
  s ← get_child_element_as_type_or_panic SimpleDataTypesType_from e
    "simpleDataTypes" "No 'dataTypes -> simpleDataTypes' found";
  en ← get_child_element_as_type_or_panic EnumeratedDataTypesType_from e
    "enumeratedDataTypes" "No 'dataTypes -> enumeratedDataTypes' found";
  a ← get_child_element_as_type_or_panic ArrayDataTypesType_from e
    "arrayDataTypes" "No 'dataTypes -> arrayDataTypes' found";
  f ← get_child_element_as_type_or_panic FixedRecordDataTypesType_from e
    "fixedRecordDataTypes" "No 'dataTypes -> fixedRecordDataTypes' found";
  v ← get_child_element_as_type_or_panic VariantRecordDataTypesType_from e
    "variantRecordDataTypes" "No 'dataTypes -> variantRecordDataTypes' found";
  Returned {| basic_data_representations := b; simple_data_types := s;
              enumerated_data_types := en; array_data_types := a;
              fixed_record_data_types := f; variand_record_data_types := v |}.

(* ================================================================= *)
(** ** notes *)

Record NoteType : Type := {
  note_label : string;
  note_semantics : option string }.

Definition NoteType_from (e : Element) : outcome NoteType :=
  label ← get_text_of_child_element_or_panic e "label" "No 'note -> label' found";
  Returned {| note_label := label; note_semantics := get_text_of_child_element e "semantics" |}.

Record NotesType : Type := { notes : option (list NoteType) }.

Definition NotesType_from (e : Element) : outcome NotesType :=
  l ← get_text_of_child_elements_as_type NoteType_from e "note";
  Returned {| notes := none_if_empty l |}.

(* ================================================================= *)
(** ** The object model and [parse] *)

Record ObjectModelType : Type := {
  model_identification : ModelIdentificationType;
  service_utilization : option ServiceUtiliizationType;
  objects : ObjectsType;
  om_interactions : InteractionsType;
  dimensions : DimensionsType;
  time : option TimeType;
  tags : option TagsType;
  synchronizations : option SynchronizationsType;
  om_transportations : TransportationsType;
  switches : SwitchesType;
  om_update_rates : option UpdateRatesType;
  data_types : DataTypesType;
  om_notes : option NotesType }.

Definition ObjectModelType_from (e : Element) : outcome ObjectModelType :=
  mi ← get_child_element_as_type_or_panic ModelIdentificationType_from e
    "modelIdentification" "No 'modelIdentification' element";
  su ← get_child_element_as_type ServiceUtiliizationType_from e "serviceUtilization";
  ob ← get_child_element_as_type_or_panic ObjectsType_from e "objects" "No 'objects' element";
  it ← get_child_element_as_type_or_panic InteractionsType_from e
    "interactions" "No 'interactions' element";
  di ← get_child_element_as_type_or_panic DimensionsType_from e
    "dimensions" "No 'dimensions' element";
  ti ← get_child_element_as_type TimeType_from e "time";
  ta ← get_child_element_as_type TagsType_from e "tags";
  sy ← get_child_element_as_type SynchronizationsType_from e "synchronizations";
  tr ← get_child_element_as_type_or_panic TransportationsType_from e
    "transportations" "No 'transportations' element";
  sw ← get_child_element_as_type_or_panic SwitchesType_from e "switches" "No 'switches' element";
  ur ← get_child_element_as_type UpdateRatesType_from e "updateRates";
  dt ← get_child_element_as_type_or_panic DataTypesType_from e
    "dataTypes" "No 'dataTypes' element";
  no ← get_child_element_as_type NotesType_from e "notes";
  Returned {| model_identification := mi; service_utilization := su; objects := ob;
              om_interactions := it; dimensions := di; time := ti; tags := ta;
              synchronizations := sy; om_transportations := tr; switches := sw;
              om_update_rates := ur; data_types := dt; om_notes := no |}.

(** [pub fn parse<R: Read>(r: R) -> Result<(), ParseError>].  The input
    stream is represented by what the external [Element::parse] makes of it:
    a root element or its [ParseError] (propagated by [?]).  The converted
    model is only used for the [println!] of its name (console output, not
    modelled) and then dropped: the function returns [Ok(())]. *)
Definition parse (r : result Element ParseError) : outcome (result unit ParseError) :=
  match r with
  | Err err => Returned (Err err)
  | Ok fom_as_xml =>
      _fom ← ObjectModelType_from fom_as_xml;
      Returned (Ok tt)
  end.

(* ================================================================= *)
(** ** Concrete documents *)

Definition el (n : string) (attrs : list (string * string)) (kids : list XMLNode) : Element :=
  mkElement n (list_to_map attrs) kids.

(** [<n>s</n>] as a child node. *)
Definition tel (n s : string) : XMLNode := XElement (el n [] [XText s]).

Definition switch_attrs : list (string * string) :=
  [("auto_provide", "true"); ("convey_region_designator_sets", "false");
   ("convey_producing_federate", "false"); ("attribute_scope_advisory", "false");
   ("attribute_relevance_advisory", "false"); ("object_class_relevance_advisory", "true");
   ("interaction_relevance_advisory", "true"); ("service_reporting", "false");
   ("exception_reporting", "false"); ("delay_subscription_evaluation", "false");
   ("automatic_resign_action", "CancelThenDeleteThenDivest")].

(** A [modelIdentification] with the required children, whose [type]
    element holds the given text. *)
Definition model_identification_with (model_type : string) : Element :=
  el "modelIdentification" []
    [ tel "name" "Minimal"; tel "type" model_type; tel "version" "1.0";
      tel "modificationDate" "2020-01-01"; tel "securityClassification" "Unclassified";
      tel "description" "A minimal object model" ].

(** The minimal document of the spec, with the given attributes on
    [switches], the given root [objectClass] and the given children of
    [transportations]. *)
Definition minimal_doc_with (sw : list (string * string)) (root_class : Element)
    (trs : list XMLNode) : Element :=
  el "objectModel" []
    [ XElement (model_identification_with "FOM");
      XElement (el "objects" [] [XElement root_class]);
      XElement (el "interactions" []
        [ XElement (el "interactionClass" []
            [ tel "name" "HLAinteractionRoot"; tel "sharing" "Neither";
              tel "transportation" "HLAreliable"; tel "order" "Receive" ]) ]);
      XElement (el "dimensions" [] []);
      XElement (el "transportations" [] trs);
      XElement (el "switches" sw []);
      XElement (el "dataTypes" []
        [ XElement (el "basicDataRepresentations" [] []);
          XElement (el "simpleDataTypes" [] []);
          XElement (el "enumeratedDataTypes" [] []);
          XElement (el "arrayDataTypes" [] []);
          XElement (el "fixedRecordDataTypes" [] []);
          XElement (el "variantRecordDataTypes" [] []) ]) ].

Definition empty_root_class : Element :=
  el "objectClass" [] [tel "name" "HLAobjectRoot"; tel "sharing" "Neither"].

Definition minimal_doc : Element := minimal_doc_with switch_attrs empty_root_class [].


(** An object-class tree nested to depth 3, written as in the OMT schema
    (nested classes are [objectClass] children of their parent). *)
Definition oc_node (n : string) (kids : list XMLNode) : Element :=
  el "objectClass" [] ([tel "name" n; tel "sharing" "Neither"] ++ kids).

Definition depth3_root_class : Element :=
  oc_node "HLAobjectRoot" [XElement (oc_node "Child" [XElement (oc_node "Grandchild" [])])].

Definition depth3_doc : Element := minimal_doc_with switch_attrs depth3_root_class [].

(** A [transportation] whose [reliable] element holds [Maybe]. *)
Definition maybe_transportation : Element :=
  el "transportation" [] [tel "name" "HLAsometimes"; tel "reliable" "Maybe"].

Definition maybe_doc : Element :=
  minimal_doc_with switch_attrs empty_root_class [XElement maybe_transportation].

(** Pre-order traversal of a converted object-class tree. *)
Fixpoint preorder_names (c : ObjectClassType) : list string :=
  match c with
  | mkObjectClassType n _ _ _ kids =>
      n :: match kids with
           | Some ks => (fix go (l : list ObjectClassType) : list string :=
                           match l with [] => [] | k :: r => app (preorder_names k) (go r) end) ks
           | None => []
           end
  end.


(** Pre-order traversal of a converted interaction-class tree. *)
Fixpoint interaction_preorder_names (c : InteractionClassType) : list string :=
  match c with
  | mkInteractionClassType n _ _ _ _ _ _ kids =>
      n :: match kids with
           | Some ks => (fix go (l : list InteractionClassType) : list string :=
                           match l with
                           | [] => []
                           | k :: r => app (interaction_preorder_names k) (go r)
                           end) ks
           | None => []
           end
  end.

(** An interaction-class tree nested to depth 3, as in the OMT schema. *)
Definition ic_node (n : string) (kids : list XMLNode) : Element :=
  el "interactionClass" []
    ([tel "name" n; tel "sharing" "Neither"; tel "transportation" "HLAreliable";
      tel "order" "Receive"] ++ kids).

Definition depth3_interaction_root : Element :=
  ic_node "HLAinteractionRoot" [XElement (ic_node "Child" [XElement (ic_node "Grandchild" [])])].

(** The text carried by the open-vocabulary fallback variants. *)
Definition security_classification_fallback_text (v : SecurityClassificationType)
    : option string :=
  match v with SecurityClassificationOther t => Some t | _ => None end.

Definition application_domain_fallback_text (v : ApplicationDomainType) : option string :=
  match v with ApplicationDomainOther t => Some t | _ => None end.

(** The attribute names read by [SwitchesType::from], in order. *)
Definition switches_attribute_names : list string :=
  ["auto_provide"; "convey_region_designator_sets"; "convey_producing_federate";
   "attribute_scope_advisory"; "attribute_relevance_advisory";
   "object_class_relevance_advisory"; "interaction_relevance_advisory";
   "service_reporting"; "exception_reporting"; "delay_subscription_evaluation";
   "automatic_resign_action"].

(* ================================================================= *)
(** ** The command-line tool *)

(** The file [fom-tools-cli]'s [main] opens. *)
Definition fom_filename : string := "modules/RPR-FOM_v2.0/RPR-Base_v2.0.xml".

(** [fn main()] of [fom-tools-cli].  The file system is represented by what
    [Element::parse] makes of each file [File::open] can open (a path with
    no entry cannot be opened); the [println!] calls are console output,
    not modelled.  The [Result] of [parse] is discarded by [let _ =]. *)
Definition main (fs : gmap string (result Element ParseError)) : outcome unit :=
  match fs !! fom_filename with
  | Some fom_file => _r ← parse fom_file; Returned tt
  | None => Returned tt
  end.

(* ================================================================= *)
(** ** Vocabulary used in the statements *)

(** Every character of [s] is whitespace. *)
Fixpoint all_whitespace (s : string) : bool :=
  match s with
  | EmptyString => true
  | String c r => is_whitespace c && all_whitespace r
  end.



(** The [Display] text of a [bool]. *)
Definition bool_text (b : bool) : string := if b then "true" else "false".

(** A decimal digit character: [48 <= code <= 57]. *)
Definition is_digit_char (c : ascii) : Prop :=
  (48 <= nat_of_ascii c <= 57)%nat.

(** The decimal numeral of [n], without sign or leading zeros; the fuel
    [S (N.to_nat n)] is more than the number of digits. *)
Definition digit_char (d : N) : ascii := ascii_of_N (48 + d).

Fixpoint decimal_fuel (fuel : nat) (n : N) : string :=
  match fuel with
  | O => EmptyString
  | S f =>
      if (n <? 10)%N then String (digit_char n) EmptyString
      else decimal_fuel f (n / 10) ++ String (digit_char (n mod 10)) EmptyString
  end.

Definition decimal (n : N) : string := decimal_fuel (S (N.to_nat n)) n.

(** The names of a class element and of the class elements nested in it
    under the child name [tag], in document pre-order (the name of an
    element without a [name] child is [""]). *)
Fixpoint nested_element_names (tag : string) (e : Element) : list string :=
  match e with
  | mkElement _ _ cs =>
      match get_text_of_child_element e "name" with Some n => n | None => "" end ::
      (fix go (l : list XMLNode) : list string :=
         match l with
         | [] => []
         | XElement c :: rest =>
             if String.eqb (el_name c) tag
             then app (nested_element_names tag c) (go rest) else go rest
         | _ :: rest => go rest
         end) cs
  end.

(** An object-class tree nested to depth 3 through [objectClasses]
    children, the element name the converter follows. *)
Definition oc_nested_node (n : string) (kids : list XMLNode) : Element :=
  el "objectClasses" [] ([tel "name" n; tel "sharing" "Neither"] ++ kids).

Definition depth3_object_classes_root : Element :=
  el "objectClass" []
    [tel "name" "HLAobjectRoot"; tel "sharing" "Neither";
     XElement (oc_nested_node "Child" [XElement (oc_nested_node "Grandchild" [])])].

(** A [glyph] element with the given attributes. *)
Definition glyph_el (attrs : list (string * string)) : Element := el "glyph" attrs [].

(** A [dataTypes] element with its six catalogs, all empty. *)
Definition empty_data_types : Element :=
  el "dataTypes" []
    [ XElement (el "basicDataRepresentations" [] []); XElement (el "simpleDataTypes" [] []);
      XElement (el "enumeratedDataTypes" [] []); XElement (el "arrayDataTypes" [] []);
      XElement (el "fixedRecordDataTypes" [] []); XElement (el "variantRecordDataTypes" [] []) ].

(** A [tags] element with only a [send_receive_tag]. *)
Definition send_receive_tags : Element :=
  el "tags" [] [XElement (el "send_receive_tag" [] [tel "dataType" "HLAtoken"])].

(* ================================================================= *)
(** ** General lemmas *)

Lemma bind_Returned {A B} (a : A) (f : A -> outcome B) :
  (x ← Returned a; f x) = f a.
Proof. reflexivity. Qed.

Lemma bind_Panicked {A B} (m : string) (f : A -> outcome B) :
  (x ← Panicked m; f x) = Panicked m.
Proof. reflexivity. Qed.

Lemma bind_Returned_inv {A B} (m : outcome A) (f : A -> outcome B) (b : B) :
  (x ← m; f x) = Returned b -> exists a, m = Returned a /\ f a = Returned b.
Proof. destruct m as [a|s]; simpl; [eauto | discriminate]. Qed.

Lemma bind_Panicked_of {A B} (m : outcome A) (f : A -> outcome B) :
  panicked m = true -> panicked (x ← m; f x) = true.
Proof. destruct m; simpl; congruence. Qed.

Lemma match_token_Returned {A} text (arms : list (string * A)) d v :
  match_token text arms d = Returned v -> In (text, v) arms \/ d text = Returned v.
Proof.
  induction arms as [|[k w] rest IH]; simpl; [auto|].
  destruct (String.eqb_spec text k) as [->|_].
  - intros [= ->]. auto.
  - intros H. destruct (IH H); auto.
Qed.

Lemma match_token_miss {A} text (arms : list (string * A)) d :
  ~ In text (map fst arms) -> match_token text arms d = d text.
Proof.
  induction arms as [|[k w] rest IH]; simpl; [auto|].
  intros Hn. destruct (String.eqb_spec text k) as [->|_]; [tauto|auto].
Qed.

(** The first arm whose token is [text] wins. *)
Lemma match_token_hit {A} text (arms : list (string * A)) d v :
  NoDup (map fst arms) -> In (text, v) arms -> match_token text arms d = Returned v.
Proof.
  induction arms as [|[k w] rest IH]; simpl; [tauto|].
  intros Hnd Hin. inversion Hnd as [|? ? Hk Hnd']; subst.
  destruct (String.eqb_spec text k) as [->|Hne].
  - destruct Hin as [[= ->]|Hin]; [reflexivity|].
    exfalso. apply Hk. apply list_elem_of_In, in_map_iff. exists (k, v); auto.
  - destruct Hin as [[= -> ->]|Hin]; [congruence|auto].
Qed.

(** A closed vocabulary: the catch-all arm panics. *)
Lemma match_token_closed {A} text (arms : list (string * A)) (msg : string -> string) v :
  match_token text arms (fun t => Panicked (msg t)) = Returned v -> In (text, v) arms.
Proof. intros H. destruct (match_token_Returned _ _ _ _ H) as [?|?]; [auto|discriminate]. Qed.




Lemma get_element_text_single (n : string) attrs x :
  get_element_text (mkElement n attrs [XText x]) = trim x.
Proof. reflexivity. Qed.

(** Unfold the monad and the accessors of a conversion. *)
Ltac unfold_conv :=
  unfold get_child_element_as_type_or_panic, get_child_element_as_type,
    get_attribute_as_type_or_panic, get_attribute_as_type,
    get_text_of_child_element_or_panic, get_text_of_attribute_or_panic,
    get_text_of_attribute in *;
  cbn [mbind outcome_bind] in *.

(** Split a conjunction of goals about tokens, closing the computable ones. *)
Ltac solve_token_in :=
  repeat match goal with
  | H : _ \/ _ |- _ => destruct H as [H|H]
  | H : (_, _) = (_, _) |- _ => injection H as <- <-
  | H : False |- _ => destruct H
  end; auto.

Ltac nodup_tokens := apply (bool_decide_unpack _); vm_compute; exact I.

(** A closed converter returns exactly the variants of its arms. *)
Lemma closed_match_token_iff {A} text (arms : list (string * A)) (msg : string -> string) v :
  NoDup (map fst arms) ->
  match_token text arms (fun t => Panicked (msg t)) = Returned v <-> In (text, v) arms.
Proof.
  intros Hnd. split; [apply match_token_closed | apply match_token_hit; exact Hnd].
Qed.

(* ================================================================= *)
(** ** Closed vocabularies *)

(** C7: the closed vocabularies (order, reliability, endianness,
    synchronization capability).  Each converter returns a variant exactly
    when the trimmed text is that variant's token in its fixed table, and
    panics (naming the text) on any token outside the table; in particular
    a [transportation] whose [reliable] element holds [Maybe] makes its
    conversion, and the parse of a document holding it, fail. *)
Theorem closed_vocabularies_reject_unknown :
  (forall (e : Element) (v : OrderType),
     OrderType_from e = Returned v <-> In (get_element_text e, v) OrderType_arms) /\
  (forall e : Element, ~ In (get_element_text e) (map fst OrderType_arms) ->
     OrderType_from e = Panicked ("Unknown OrderType: " ++ get_element_text e)) /\
  (forall (e : Element) (v : ReliableType),
     ReliableType_from e = Returned v <-> In (get_element_text e, v) ReliableType_arms) /\
  (forall e : Element, ~ In (get_element_text e) (map fst ReliableType_arms) ->
     ReliableType_from e = Panicked ("Unexpected reliable type: " ++ get_element_text e)) /\
  (forall (e : Element) (v : EndianType),
     EndianType_from e = Returned v <-> In (get_element_text e, v) EndianType_arms) /\
  (forall e : Element, ~ In (get_element_text e) (map fst EndianType_arms) ->
     EndianType_from e = Panicked ("Unknown endian type: " ++ get_element_text e)) /\
  (forall (e : Element) (v : CapabilityType),
     CapabilityType_from e = Returned v <-> In (get_element_text e, v) CapabilityType_arms) /\
  (forall e : Element, ~ In (get_element_text e) (map fst CapabilityType_arms) ->
     CapabilityType_from e = Panicked ("Unknown capability: " ++ get_element_text e)) /\
  TransportationType_from maybe_transportation = Panicked "Unexpected reliable type: Maybe" /\
  parse (Ok maybe_doc) = Panicked "Unexpected reliable type: Maybe".
Proof.
  do 4 (split; [intros e v; apply (closed_match_token_iff _ _ (fun t => _)); nodup_tokens|];
        split; [intros e Hn; unfold OrderType_from, ReliableType_from, EndianType_from,
                  CapabilityType_from; rewrite match_token_miss by exact Hn; reflexivity|]).
  split; vm_compute; reflexivity.
Qed.

Lemma closed_vocabularies_reject_unknown_witness :
  OrderType_from (el "order" [] [XText " Timestamp "]) = Panicked "Unknown OrderType: Timestamp" /\
  ReliableType_from (el "reliable" [] [XText "Maybe"]) = Panicked "Unexpected reliable type: Maybe" /\
  EndianType_from (el "endian" [] [XText "big"]) = Panicked "Unknown endian type: big" /\
  CapabilityType_from (el "capability" [] [XText "Sync"]) = Panicked "Unknown capability: Sync" /\
  OrderType_from (el "order" [] [XText "Receive"]) = Returned Receive.
Proof.
  destruct closed_vocabularies_reject_unknown
    as (Ho & Hou & Hr & Hru & He & Heu & Hc & Hcu & _).
  split; [apply (Hou (el "order" [] [XText " Timestamp "])); vm_compute; intuition discriminate|].
  split; [apply (Hru (el "reliable" [] [XText "Maybe"])); vm_compute; intuition discriminate|].
  split; [apply (Heu (el "endian" [] [XText "big"])); vm_compute; intuition discriminate|].
  split; [apply (Hcu (el "capability" [] [XText "Sync"])); vm_compute; intuition discriminate|].
  apply (Ho (el "order" [] [XText "Receive"])). vm_compute. left. reflexivity.
Defined.

(* ================================================================= *)
(** ** modelIdentification type *)

(** C2, counterexample: a [modelIdentification] whose [type] element holds
    the unknown token [BOM] does not convert; the conversion panics. *)
Lemma model_type_unknown_token_panics :
  ModelType_from (el "type" [] [XText "BOM"])
    = Panicked "Unknown 'modelidentification -> type': BOM" /\
  ModelIdentificationType_from (model_identification_with "BOM")
    = Panicked "Unknown 'modelidentification -> type': BOM" /\
  ~ (exists mi, ModelIdentificationType_from (model_identification_with "BOM") = Returned mi).
Proof.
  split; [vm_compute; reflexivity|]. split; [vm_compute; reflexivity|].
  intros [mi H]. vm_compute in H. discriminate.
Qed.

(** C2 (amended): model type is a closed vocabulary.  [ModelType::from]
    returns [FOM] or [SOM] exactly for those tokens and panics, naming the
    text, on every other token; a [modelIdentification] whose [type] element
    holds an unknown token never converts. *)
Theorem model_type_is_closed :
  (forall (e : Element) (v : ModelType),
     ModelType_from e = Returned v <-> In (get_element_text e, v) ModelType_arms) /\
  (forall e : Element, ~ In (get_element_text e) (map fst ModelType_arms) ->
     ModelType_from e = Panicked ("Unknown 'modelidentification -> type': " ++ get_element_text e)) /\
  (forall e t : Element, get_child e "type" = Some t ->
     ~ In (get_element_text t) (map fst ModelType_arms) ->
     panicked (ModelIdentificationType_from e) = true).
Proof.
  split; [intros e v; apply (closed_match_token_iff _ _ (fun t => _)); nodup_tokens|].
  assert (Hmiss : forall e : Element, ~ In (get_element_text e) (map fst ModelType_arms) ->
     ModelType_from e = Panicked ("Unknown 'modelidentification -> type': " ++ get_element_text e)).
  { intros e Hn. unfold ModelType_from. rewrite match_token_miss by exact Hn. reflexivity. }
  split; [exact Hmiss|].
  intros e t Ht Hn. unfold ModelIdentificationType_from. unfold_conv.
  destruct (get_child e "name"); simpl; [|reflexivity].
  rewrite Ht, (Hmiss t Hn). reflexivity.
Qed.

Lemma model_type_is_closed_witness :
  ModelType_from (el "type" [] [XText "SOM"]) = Returned SOM /\
  ModelType_from (el "type" [] [XText "fom"])
    = Panicked "Unknown 'modelidentification -> type': fom" /\
  panicked (ModelIdentificationType_from (model_identification_with "BOM")) = true.
Proof.
  destruct model_type_is_closed as (Hk & Hu & Hmi).
  split; [apply (Hk (el "type" [] [XText "SOM"])); vm_compute; auto|].
  split; [apply (Hu (el "type" [] [XText "fom"])); vm_compute; intuition discriminate|].
  apply (Hmi (model_identification_with "BOM") (el "type" [] [XText "BOM"]));
    [reflexivity | vm_compute; intuition discriminate].
Defined.

(* ================================================================= *)
(** ** Open vocabularies *)

Lemma element_text_of_token (e : Element) (x : string) :
  get_text e = Some x -> trim x = x -> get_element_text e = x.
Proof. intros Ht Hx. unfold get_element_text. rewrite Ht. exact Hx. Qed.

(** C9: for the open vocabularies with a fallback variant (security
    classification, application domain), an element whose text content is
    an unknown token [x] (a token: no surrounding whitespace, so trimming
    keeps it) converts to the fallback variant, and the text embedded in it
    is [x] itself. *)
Theorem open_vocabulary_fallback_keeps_token :
  (forall (e : Element) (x : string), get_text e = Some x -> trim x = x ->
     ~ In x (map fst SecurityClassificationType_arms) ->
     match SecurityClassificationType_from e with
     | Returned v => security_classification_fallback_text v = Some x
     | Panicked _ => False
     end) /\
  (forall (e : Element) (x : string), get_text e = Some x -> trim x = x ->
     ~ In x (map fst ApplicationDomainType_arms) ->
     match ApplicationDomainType_from e with
     | Returned v => application_domain_fallback_text v = Some x
     | Panicked _ => False
     end).
Proof.
  split; intros e x Ht Hx Hn;
    unfold SecurityClassificationType_from, ApplicationDomainType_from;
    rewrite (element_text_of_token e x Ht Hx), match_token_miss by exact Hn;
    reflexivity.
Qed.

Lemma open_vocabulary_fallback_keeps_token_witness :
  let e := el "securityClassification" [] [XText "Restricted"] in
  get_text e = Some "Restricted" /\ trim "Restricted" = "Restricted" /\
  ~ In "Restricted" (map fst SecurityClassificationType_arms) /\
  match SecurityClassificationType_from e with
  | Returned v => security_classification_fallback_text v = Some "Restricted"
  | Panicked _ => False
  end.
Proof.
  intros e.
  assert (Hn : ~ In "Restricted" (map fst SecurityClassificationType_arms))
    by (vm_compute; intuition discriminate).
  split; [reflexivity|]. split; [reflexivity|]. split; [exact Hn|].
  exact (proj1 open_vocabulary_fallback_keeps_token e "Restricted" eq_refl eq_refl Hn).
Defined.

(* ================================================================= *)
(** ** Token matching *)

Ltac unfold_vocab H :=
  unfold ModelType_from, SecurityClassificationType_from, ApplicationDomainType_from,
    PocTypeType_from, SharingType_from, UpdateType_from, OwnershipType_from,
    OrderType_from, CapabilityType_from, ReliableType_from, EndianType_from,
    ArrayDataTypeEncodingType_from, FixedRecordEncodingType_from,
    VariantRecordEncodingType_from, ResignSwitchType_from in H.

Ltac token_of_result :=
  let H := fresh "H" in
  intros ? ? H; unfold_vocab H;
  first [ eapply match_token_closed; exact H
        | let Hd := fresh "Hd" in
          destruct (match_token_Returned _ _ _ _ H) as [?|Hd];
          [left; assumption | right; injection Hd as <-; reflexivity] ].

(** C5, counterexample: the glyph-format converter accepts [png], which
    differs from the known token [PNG] only in letter case, as [Png]. *)
Lemma glyph_format_lowercase_converts :
  GlyphTypeType_from "png" = Returned Png /\
  GlyphType_from (el "glyph" [("type", "png"); ("height", "16"); ("width", "16");
                              ("alt", "logo")] [])
    = Returned {| glyph_href := None; glyph_type := Png; glyph_height := 16%N;
                  glyph_width := 16%N; glyph_alt := "logo" |}.
Proof. split; vm_compute; reflexivity. Qed.

(** C5 (amended): every vocabulary converter other than the glyph-format one
    matches its text exactly and case-sensitively against its fixed table
    (the trimmed element text, or the attribute text for the resign action
    and the boolean switches): a variant other than a fallback is returned
    only for its own token.  The glyph-format converter upper-cases the
    attribute text (ASCII) before the match, so it returns a variant exactly
    when the upper-cased text is that variant's token, whatever the letter
    case of the input, and panics otherwise. *)
Theorem vocabulary_token_matching :
  (forall (s : string) (v : GlyphTypeType),
     GlyphTypeType_from s = Returned v <-> In (to_uppercase s, v) GlyphTypeType_arms) /\
  (forall s : string, ~ In (to_uppercase s) (map fst GlyphTypeType_arms) ->
     GlyphTypeType_from s = Panicked ("Unknown 'modelIdentification -> glyph -> type': " ++ s)) /\
  (forall (e : Element) v, ModelType_from e = Returned v ->
     In (get_element_text e, v) ModelType_arms) /\
  (forall (e : Element) v, SecurityClassificationType_from e = Returned v ->
     In (get_element_text e, v) SecurityClassificationType_arms \/
     v = SecurityClassificationOther (get_element_text e)) /\
  (forall (e : Element) v, ApplicationDomainType_from e = Returned v ->
     In (get_element_text e, v) ApplicationDomainType_arms \/
     v = ApplicationDomainOther (get_element_text e)) /\
  (forall (e : Element) v, PocTypeType_from e = Returned v ->
     In (get_element_text e, v) PocTypeType_arms) /\
  (forall (e : Element) v, SharingType_from e = Returned v ->
     In (get_element_text e, v) SharingType_arms) /\
  (forall (e : Element) v, UpdateType_from e = Returned v ->
     In (get_element_text e, v) UpdateType_arms) /\
  (forall (e : Element) v, OwnershipType_from e = Returned v ->
     In (get_element_text e, v) OwnershipType_arms) /\
  (forall (e : Element) v, OrderType_from e = Returned v ->
     In (get_element_text e, v) OrderType_arms) /\
  (forall (e : Element) v, CapabilityType_from e = Returned v ->
     In (get_element_text e, v) CapabilityType_arms) /\
  (forall (e : Element) v, ReliableType_from e = Returned v ->
     In (get_element_text e, v) ReliableType_arms) /\
  (forall (e : Element) v, EndianType_from e = Returned v ->
     In (get_element_text e, v) EndianType_arms) /\
  (forall (e : Element) v, ArrayDataTypeEncodingType_from e = Returned v ->
     In (get_element_text e, v) ArrayDataTypeEncodingType_arms) /\
  (forall (e : Element) v, FixedRecordEncodingType_from e = Returned v ->
     In (get_element_text e, v) FixedRecordEncodingType_arms) /\
  (forall (e : Element) v, VariantRecordEncodingType_from e = Returned v ->
     In (get_element_text e, v) VariantRecordEncodingType_arms) /\
  (forall (s : string) v, ResignSwitchType_from s = Returned v ->
     In (s, v) ResignSwitchType_arms) /\
  (forall (s : string) (sw : SwitchType), SwitchType_from s = Returned sw ->
     (s = "true" /\ is_enabled sw = true) \/ (s = "false" /\ is_enabled sw = false)).
Proof.
  split.
  { intros s v. unfold GlyphTypeType_from. split.
    - intros H. destruct (match_token_Returned _ _ _ _ H) as [?|?]; [assumption|discriminate].
    - apply match_token_hit. nodup_tokens. }
  split.
  { intros s Hn. unfold GlyphTypeType_from. rewrite match_token_miss by exact Hn. reflexivity. }
  do 15 (split; [token_of_result|]).
  intros s sw H. unfold SwitchType_from, parse_bool in H.
  destruct (String.eqb_spec s "true") as [->|_];
    [|destruct (String.eqb_spec s "false") as [->|_]];
    cbn in H; try discriminate; injection H as <-; auto.
Qed.

Lemma vocabulary_token_matching_witness :
  GlyphTypeType_from "Tiff" = Returned Tiff /\ In ("Neither", Neither) SharingType_arms.
Proof.
  destruct vocabulary_token_matching as (Hg & _ & _ & _ & _ & _ & Hsh & _).
  split; [apply Hg; vm_compute; do 4 right; left; reflexivity|].
  exact (Hsh (el "sharing" [] [XText " Neither"]) Neither eq_refl).
Defined.

(* ================================================================= *)
(** ** switches *)

Lemma bind_panicked_all {A B} (m : outcome A) (f : A -> outcome B) :
  (forall a, m = Returned a -> panicked (f a) = true) -> panicked (x ← m; f x) = true.
Proof. destruct m; simpl; auto. Qed.

Lemma missing_attribute_panics {T} (from : string -> outcome T) e k msg :
  el_attributes e !! k = None ->
  get_attribute_as_type_or_panic from e k msg = Panicked msg.
Proof. intros H. unfold get_attribute_as_type_or_panic, get_attribute_as_type. rewrite H. reflexivity. Qed.

Lemma bad_switch_attribute_panics e k s msg :
  el_attributes e !! k = Some s -> parse_bool s = None ->
  panicked (get_attribute_as_type_or_panic SwitchType_from e k msg) = true.
Proof.
  intros H Hb. unfold get_attribute_as_type_or_panic, get_attribute_as_type, SwitchType_from.
  rewrite H. cbn. rewrite Hb. reflexivity.
Qed.

(** Walk the chain of binds of a conversion up to the field that panics. *)
Ltac reach_panic tac :=
  repeat first [ apply bind_Panicked_of; tac
               | apply bind_panicked_all; intros ? ? ].

(** C8: [SwitchesType::from] reads exactly the 11 distinct attributes of
    [switches_attribute_names] (its result depends on nothing else), and all
    11 are mandatory: conversion panics when any one is absent.  A boolean
    switch flag converts exactly from the texts [true] and [false]; any
    other text panics, and makes the conversion of [switches] panic. *)
Theorem switches_flags_all_mandatory :
  length switches_attribute_names = 11 /\ NoDup switches_attribute_names /\
  (forall e1 e2 : Element,
     (forall k, In k switches_attribute_names -> el_attributes e1 !! k = el_attributes e2 !! k) ->
     SwitchesType_from e1 = SwitchesType_from e2) /\
  (forall (e : Element) (k : string), In k switches_attribute_names ->
     el_attributes e !! k = None -> panicked (SwitchesType_from e) = true) /\
  (forall s : string, SwitchType_from s = Returned {| is_enabled := true |} <-> s = "true") /\
  (forall s : string, SwitchType_from s = Returned {| is_enabled := false |} <-> s = "false") /\
  (forall s : string, s <> "true" -> s <> "false" ->
     SwitchType_from s = Panicked "called `Result::unwrap()` on an `Err` value: ParseBoolError") /\
  (forall (e : Element) (k s : string), In k (firstn 10 switches_attribute_names) ->
     el_attributes e !! k = Some s -> s <> "true" -> s <> "false" ->
     panicked (SwitchesType_from e) = true).
Proof.
  split; [reflexivity|]. split; [nodup_tokens|].
  split.
  { intros e1 e2 H. unfold SwitchesType_from, get_attribute_as_type_or_panic,
      get_attribute_as_type.
    rewrite !H by (simpl; tauto). reflexivity. }
  split.
  { intros e k Hk Hn. unfold SwitchesType_from.
    simpl in Hk. repeat destruct Hk as [<-|Hk]; [..|destruct Hk];
      reach_panic ltac:(rewrite missing_attribute_panics by exact Hn; reflexivity). }
  assert (Hpb : forall s, SwitchType_from s =
     match parse_bool s with
     | Some b => Returned {| is_enabled := b |}
     | None => Panicked "called `Result::unwrap()` on an `Err` value: ParseBoolError"
     end) by (intros s; unfold SwitchType_from; destruct (parse_bool s); reflexivity).
  assert (Hbool : forall s, s <> "true" -> s <> "false" -> parse_bool s = None).
  { intros s Ht Hf. unfold parse_bool.
    destruct (String.eqb_spec s "true"); [congruence|].
    destruct (String.eqb_spec s "false"); [congruence|reflexivity]. }
  split.
  { intros s. rewrite Hpb. unfold parse_bool. split.
    - destruct (String.eqb_spec s "true"); [auto|].
      destruct (String.eqb_spec s "false"); discriminate.
    - intros ->. reflexivity. }
  split.
  { intros s. rewrite Hpb. unfold parse_bool. split.
    - destruct (String.eqb_spec s "true"); [discriminate|].
      destruct (String.eqb_spec s "false"); [auto|discriminate].
    - intros ->. reflexivity. }
  split.
  { intros s Ht Hf. rewrite Hpb, (Hbool s Ht Hf). reflexivity. }
  intros e k s Hk Hs Ht Hf. unfold SwitchesType_from.
  simpl in Hk. repeat destruct Hk as [<-|Hk]; [..|destruct Hk];
    reach_panic ltac:(apply (bad_switch_attribute_panics _ _ s); [exact Hs | exact (Hbool s Ht Hf)]).
Qed.

Lemma switches_flags_all_mandatory_witness :
  panicked (SwitchesType_from (el "switches" (List.tl switch_attrs) [])) = true /\
  SwitchType_from "yes" = Panicked "called `Result::unwrap()` on an `Err` value: ParseBoolError".
Proof.
  destruct switches_flags_all_mandatory as (_ & _ & _ & Hmiss & _ & _ & Hbad & _).
  split.
  - apply (Hmiss _ "auto_provide"); [left; reflexivity | vm_compute; reflexivity].
  - apply Hbad; discriminate.
Defined.

(* ================================================================= *)
(** ** Missing required fields *)




(* ================================================================= *)
(** ** serviceUtilization *)

(** C10: [ServiceUtiliizationType::from] reads only the [connect] and
    [disconnect] children: its result is determined by them alone, so every
    other service child is ignored; both are required (conversion panics if
    either is absent), and a successful result holds exactly their
    conversions. *)
Theorem service_utilization_reads_connect_disconnect :
  (forall e1 e2 : Element,
     get_child e1 "connect" = get_child e2 "connect" ->
     get_child e1 "disconnect" = get_child e2 "disconnect" ->
     ServiceUtiliizationType_from e1 = ServiceUtiliizationType_from e2) /\
  (forall e : Element, get_child e "connect" = None ->
     panicked (ServiceUtiliizationType_from e) = true) /\
  (forall e : Element, get_child e "disconnect" = None ->
     panicked (ServiceUtiliizationType_from e) = true) /\
  (forall (e : Element) (su : ServiceUtiliizationType),
     ServiceUtiliizationType_from e = Returned su ->
     exists c d, get_child e "connect" = Some c /\ get_child e "disconnect" = Some d /\
       ServiceInfoType_from c = Returned (su_connect su) /\
       ServiceInfoType_from d = Returned (su_disconnect su)).
Proof.
  unfold ServiceUtiliizationType_from, get_child_element_as_type_or_panic,
    get_child_element_as_type.
  split; [intros e1 e2 Hc Hd; rewrite Hc, Hd; reflexivity|].
  split; [intros e H; rewrite H; reflexivity|].
  split.
  { intros e H. rewrite H. apply bind_panicked_all. intros a _.
    cbn. destruct a; reflexivity. }
  intros e su H.
  destruct (get_child e "connect") as [c|]; [|discriminate].
  destruct (ServiceInfoType_from c) as [ci|] eqn:Hc; [|discriminate].
  cbn in H. destruct (get_child e "disconnect") as [d|]; [|discriminate].
  destruct (ServiceInfoType_from d) as [di|] eqn:Hd; [|discriminate].
  cbn in H. injection H as <-. exists c, d. auto.
Qed.

(* ================================================================= *)
(** ** Object-class trees *)

(** The unfolding of [ObjectClassType_from]: its nested classes are
    [get_text_of_child_elements_as_type] over the children named
    ["objectClasses"]. *)
Lemma ObjectClassType_from_eq (e : Element) :
  ObjectClassType_from e =
    (name ← get_child_element_as_type_or_panic text_from e "name"
       "No 'objectModel -> objects -> objectClass -> name' found";
     sharing ← get_child_element_as_type_or_panic SharingType_from e "sharing"
       "No 'objectModel -> objects -> objectClass -> sharing' found";
     semantics ← get_child_element_as_type text_from e "semantics";
     attributes ← get_text_of_child_elements_as_type AttributeType_from e "attribute";
     object_classes ← get_text_of_child_elements_as_type ObjectClassType_from e "objectClasses";
     Returned {| oc_name := name; oc_sharing := sharing; oc_semantics := semantics;
                 oc_attributes := none_if_empty attributes;
                 oc_object_classes := none_if_empty object_classes |}).
Proof.
  destruct e as [n a cs]. cbn [ObjectClassType_from].
  match goal with |- context [?F cs] =>
    assert (HF : forall l, F l = collect ObjectClassType_from (elements_named l "objectClasses"));
    [ induction l as [|[c| | | | ] rest IH]; cbn -[ObjectClassType_from]; try exact IH;
      [ reflexivity
      | destruct (String.eqb (el_name c) "objectClasses"); cbn -[ObjectClassType_from];
        [rewrite IH|exact IH]; reflexivity ]
    | ]
  end.
  rewrite HF. reflexivity.
Qed.

(** C4 (code defect): nested object classes are read from children named
    [objectClasses], while the OMT schema, the [objects] section
    ([objectClass]) and the parallel interaction tree ([interactionClass])
    nest the class element itself.  A class with no [objectClasses]
    children converts with no nested classes at all, so the depth-3 tree
    root -> child -> grandchild of [depth3_doc] converts to a single node;
    the same nesting of interaction classes keeps all three. *)
Theorem depth3_object_class_tree_collapses :
  (forall (e : Element) (c : ObjectClassType), child_elements e "objectClasses" = [] ->
     ObjectClassType_from e = Returned c -> oc_object_classes c = None) /\
  match ObjectModelType_from depth3_doc with
  | Returned om => preorder_names (root_object_class (objects om)) = ["HLAobjectRoot"]
  | Panicked _ => False
  end /\
  match InteractionClassType_from depth3_interaction_root with
  | Returned ic => interaction_preorder_names ic = ["HLAinteractionRoot"; "Child"; "Grandchild"]
  | Panicked _ => False
  end.
Proof.
  split; [|split; vm_compute; reflexivity].
  intros e c Hn H. rewrite ObjectClassType_from_eq in H.
  unfold get_text_of_child_elements_as_type in H. rewrite Hn in H.
  repeat (let a := fresh "a" in let Ha := fresh "Ha" in
          apply bind_Returned_inv in H as [a [Ha H]]).
  injection H as <-. match goal with Hc : collect _ [] = Returned _ |- _ =>
    injection Hc as <- end. reflexivity.
Qed.

Lemma depth3_object_class_tree_collapses_witness :
  oc_object_classes (mkObjectClassType "HLAobjectRoot" Neither None None None) = None.
Proof.
  apply ((proj1 depth3_object_class_tree_collapses) depth3_root_class); reflexivity.
Defined.

(* ================================================================= *)
(** ** Absent versus empty repeated groups *)

Ltac peel H :=
  repeat (let a := fresh "a" in let Ha := fresh "Ha" in
          apply bind_Returned_inv in H as [a [Ha H]]);
  injection H as <-.


Lemma service_utilization_reads_connect_disconnect_witness :
  panicked (ServiceUtiliizationType_from
    (el "serviceUtilization" []
       [XElement (el "connect" [("section", "4.2"); ("isCallback", "false");
                                ("isUsed", "true")] [])])) = true.
Proof.
  apply (proj1 (proj2 (proj2 service_utilization_reads_connect_disconnect))).
  reflexivity.
Defined.

(* ================================================================= *)
(** ** parse *)

(** C1, counterexample: [parse] does not return a structured error for a
    document it cannot convert (it panics, returning nothing), and for the
    minimal document it returns [Ok(())], not the ObjectModel. *)
Lemma parse_panics_or_returns_unit :
  parse (Ok (el "objectModel" [] [])) = Panicked "No 'modelIdentification' element" /\
  ~ (exists r, parse (Ok (el "objectModel" [] [])) = Returned r) /\
  parse (Ok minimal_doc) = Returned (Ok tt).
Proof.
  split; [vm_compute; reflexivity|]. split; [|vm_compute; reflexivity].
  intros [r H]. vm_compute in H. discriminate.
Qed.

(** C1 (amended): [parse] returns the tree parser's syntax error unchanged;
    otherwise it converts the root element: if a conversion fails the parse
    panics with the first failure met in field order (so nothing is
    returned, in particular no partial ObjectModel), and if the conversion
    succeeds it returns [Ok(())], the converted model being dropped. *)
Theorem parse_outcomes :
  (forall err : ParseError, parse (Err err) = Returned (Err err)) /\
  (forall root : Element, (exists om, ObjectModelType_from root = Returned om) ->
     parse (Ok root) = Returned (Ok tt)) /\
  (forall (root : Element) (msg : string), ObjectModelType_from root = Panicked msg ->
     parse (Ok root) = Panicked msg) /\
  (forall root : Element, get_child root "modelIdentification" = None ->
     parse (Ok root) = Panicked "No 'modelIdentification' element") /\
  (forall (r : result Element ParseError) (x : result unit ParseError),
     parse r = Returned x -> x = Ok tt \/ exists err, r = Err err /\ x = Err err).
Proof.
  split; [reflexivity|].
  split; [intros root [om H]; unfold parse; rewrite H; reflexivity|].
  split; [intros root msg H; unfold parse; rewrite H; reflexivity|].
  split.
  { intros root H. unfold parse, ObjectModelType_from, get_child_element_as_type_or_panic,
      get_child_element_as_type. rewrite H. reflexivity. }
  intros [root|err] x H; unfold parse in H.
  - apply bind_Returned_inv in H as [om [_ H]]. injection H as <-. auto.
  - injection H as <-. right. eauto.
Qed.

Lemma parse_outcomes_witness :
  parse (Ok minimal_doc) = Returned (Ok tt) /\
  parse (Ok (el "objectModel" [] [XElement (el "switches" [] [])]))
    = Panicked "No 'modelIdentification' element".
Proof.
  destruct parse_outcomes as (_ & Hok & _ & Hmi & _).
  split.
  - apply Hok. eexists. vm_compute. reflexivity.
  - apply Hmi. reflexivity.
Defined.

(* ================================================================= *)
(** ** Strings: [trim] and the numerals of [parse_uint] *)

Lemma string_app_nil_l (b : string) : "" ++ b = b.
Proof. reflexivity. Qed.

Lemma string_app_cons c (a b : string) : String c a ++ b = String c (a ++ b).
Proof. reflexivity. Qed.

Lemma string_app_assoc (a b c : string) : (a ++ b) ++ c = a ++ (b ++ c).
Proof.
  induction a as [|x a IH]; [reflexivity|]. rewrite !string_app_cons, IH. reflexivity.
Qed.

Lemma string_app_nil_r (a : string) : a ++ "" = a.
Proof. induction a as [|x a IH]; [reflexivity|]. rewrite string_app_cons, IH. reflexivity. Qed.

Lemma string_rev_app (a b : string) : string_rev (a ++ b) = string_rev b ++ string_rev a.
Proof.
  induction a as [|x a IH].
  - rewrite string_app_nil_l, string_app_nil_r. reflexivity.
  - rewrite string_app_cons. cbn [string_rev]. rewrite IH, string_app_assoc. reflexivity.
Qed.

Lemma string_rev_single c : string_rev (String c "") = String c "".
Proof. reflexivity. Qed.

Lemma string_rev_involutive (s : string) : string_rev (string_rev s) = s.
Proof.
  induction s as [|x s IH]; [reflexivity|]. cbn [string_rev].
  rewrite string_rev_app, IH, string_rev_single, string_app_cons, string_app_nil_l.
  reflexivity.
Qed.

(** Two strings with the same last character. *)
Lemma last_char_eq (r r' : string) c d :
  r ++ String c "" = r' ++ String d "" -> c = d.
Proof.
  intros H. apply (f_equal string_rev) in H.
  rewrite !string_rev_app, !string_rev_single, !string_app_cons in H.
  injection H as <- _. reflexivity.
Qed.

Lemma all_whitespace_app (a b : string) :
  all_whitespace (a ++ b) = all_whitespace a && all_whitespace b.
Proof.
  induction a as [|x a IH]; [reflexivity|].
  rewrite string_app_cons. cbn [all_whitespace]. rewrite IH. apply andb_assoc.
Qed.

Lemma all_whitespace_rev (s : string) : all_whitespace (string_rev s) = all_whitespace s.
Proof.
  induction s as [|x s IH]; [reflexivity|]. cbn [string_rev all_whitespace].
  rewrite all_whitespace_app, IH. cbn [all_whitespace]. rewrite andb_true_r. apply andb_comm.
Qed.



Lemma trim_start_all_whitespace (s : string) :
  all_whitespace s = true -> trim_start s = "".
Proof.
  induction s as [|c r IH]; simpl; [reflexivity|].
  intros H. apply andb_prop in H as [-> H]. auto.
Qed.

Lemma trim_start_ws_prefix (p t : string) :
  all_whitespace p = true -> (forall c r, t = String c r -> is_whitespace c = false) ->
  trim_start (p ++ t) = t.
Proof.
  induction p as [|c p IH]; intros Hp Ht.
  - rewrite string_app_nil_l. destruct t as [|c r]; simpl; [reflexivity|].
    rewrite (Ht c r eq_refl). reflexivity.
  - rewrite string_app_cons. cbn [all_whitespace] in Hp. simpl.
    apply andb_prop in Hp as [-> Hp]. auto.
Qed.


Lemma string_rev_last (t p : string) c :
  string_rev t = String c p -> t = string_rev p ++ String c "".
Proof.
  intros H. rewrite <- (string_rev_involutive t), H. reflexivity.
Qed.


Lemma trim_end_ws_suffix (t q : string) :
  all_whitespace q = true -> (forall p c, t = p ++ String c "" -> is_whitespace c = false) ->
  trim_end (t ++ q) = t.
Proof.
  intros Hq Ht. unfold trim_end. rewrite string_rev_app, trim_start_ws_prefix.
  - apply string_rev_involutive.
  - rewrite all_whitespace_rev. exact Hq.
  - intros c r Hr. apply (Ht (string_rev r)). apply string_rev_last. exact Hr.
Qed.




(** [trim] of a text padded with whitespace is the text itself, when the
    text neither begins nor ends with whitespace. *)
Lemma trim_padded (p t q : string) :
  all_whitespace p = true -> all_whitespace q = true ->
  (forall c r, t = String c r -> is_whitespace c = false) ->
  (forall r c, t = r ++ String c "" -> is_whitespace c = false) ->
  trim (p ++ t ++ q) = t.
Proof.
  intros Hp Hq Hh Hl. unfold trim. destruct t as [|c r].
  - rewrite string_app_nil_l, trim_start_all_whitespace; [reflexivity|].
    rewrite all_whitespace_app, Hp, Hq. reflexivity.
  - rewrite trim_start_ws_prefix; [|exact Hp|].
    + apply trim_end_ws_suffix; assumption.
    + intros c' r' Hr. rewrite string_app_cons in Hr. injection Hr as <- _.
      exact (Hh c r eq_refl).
Qed.

Lemma parse_digits_app (s1 s2 : string) k :
  parse_digits (s1 ++ s2) k =
    match parse_digits s1 k with Some k' => parse_digits s2 k' | None => None end.
Proof.
  revert k. induction s1 as [|c r IH]; intros k; [reflexivity|].
  rewrite string_app_cons. simpl. destruct (_ && _); [apply IH|reflexivity].
Qed.

Lemma digit_char_cases (d : N) :
  (d < 10)%N -> d = 0%N \/ d = 1%N \/ d = 2%N \/ d = 3%N \/ d = 4%N \/
                d = 5%N \/ d = 6%N \/ d = 7%N \/ d = 8%N \/ d = 9%N.
Proof. lia. Qed.

Lemma digit_char_spec (d : N) :
  (d < 10)%N -> is_digit_char (digit_char d) /\ is_whitespace (digit_char d) = false /\
  digit_char d <> "+"%char /\
  forall r k, parse_digits (String (digit_char d) r) k = parse_digits r (k * 10 + d)%N.
Proof.
  intros Hd. unfold is_digit_char.
  destruct (digit_char_cases d Hd) as [->|[->|[->|[->|[->|[->|[->|[->|[->| ->]]]]]]]]];
    (split; [cbv; lia|]); (split; [reflexivity|]); (split; [discriminate|]);
    intros r k; reflexivity.
Qed.

Lemma decimal_fuel_spec (f : nat) (n : N) :
  (N.to_nat n < f)%nat ->
  parse_digits (decimal_fuel f n) 0 = Some n /\
  (exists c r, decimal_fuel f n = String c r /\ is_digit_char c /\
               is_whitespace c = false /\ c <> "+"%char) /\
  (forall r c, decimal_fuel f n = r ++ String c "" -> is_whitespace c = false).
Proof.
  revert n. induction f as [|f IH]; intros n Hf; [lia|]. simpl.
  destruct (N.ltb_spec n 10) as [Hn|Hn].
  - destruct (digit_char_spec n Hn) as (Hdig & Hws & Hplus & Hparse).
    split; [rewrite Hparse; reflexivity|].
    split; [exists (digit_char n), ""; auto|].
    intros r c Hr. rewrite <- (string_app_nil_l (String (digit_char n) "")) in Hr.
    rewrite <- (last_char_eq _ _ _ _ Hr). exact Hws.
  - assert (Hlt : (N.to_nat (n / 10) < f)%nat).
    { assert (n / 10 < n)%N by (apply N.div_lt; lia). lia. }
    destruct (IH (n / 10)%N Hlt) as (Hp & (c & r & Hcr & Hc) & _).
    assert (Hm : (n mod 10 < 10)%N) by (apply N.mod_lt; lia).
    destruct (digit_char_spec (n mod 10) Hm) as (_ & Hws & _ & Hparse).
    split; [|split].
    + rewrite parse_digits_app, Hp, Hparse. simpl. f_equal.
      pose proof (N.div_mod n 10). lia.
    + rewrite Hcr, string_app_cons. exists c, (r ++ String (digit_char (n mod 10)) ""). auto.
    + intros r' c' Hr. rewrite <- (last_char_eq _ _ _ _ Hr). exact Hws.
Qed.

Lemma decimal_spec (n : N) :
  parse_digits (decimal n) 0 = Some n /\
  (exists c r, decimal n = String c r /\ is_digit_char c /\
               is_whitespace c = false /\ c <> "+"%char) /\
  (forall r c, decimal n = r ++ String c "" -> is_whitespace c = false).
Proof. apply decimal_fuel_spec. lia. Qed.

(** [parse_uint] reads the numeral of [n], with or without a [+] sign,
    exactly when [n] is below [2^bits]. *)
Lemma parse_uint_decimal (bits n : N) (sign : string) :
  sign = "" \/ sign = "+" ->
  parse_uint bits (sign ++ decimal n) = if (n <? 2 ^ bits)%N then Some n else None.
Proof.
  intros Hs. destruct (decimal_spec n) as (Hp & (c & r & Hcr & _ & _ & Hc) & _).
  assert (Hdig : parse_uint bits (String c r) =
                 match parse_digits (String c r) 0 with
                 | Some v => if (v <? 2 ^ bits)%N then Some v else None
                 | None => None end).
  { unfold parse_uint.
    destruct c as [[] [] [] [] [] [] [] []]; try reflexivity. exfalso. apply Hc. reflexivity. }
  destruct Hs as [->| ->].
  - rewrite string_app_nil_l, Hcr, Hdig, <- Hcr, Hp. reflexivity.
  - rewrite string_app_cons, string_app_nil_l.
    transitivity (match parse_digits (decimal n) 0 with
                  | Some v => if (v <? 2 ^ bits)%N then Some v else None
                  | None => None end).
    + unfold parse_uint. rewrite Hcr. reflexivity.
    + rewrite Hp. reflexivity.
Qed.

(* ================================================================= *)
(** ** Accessors *)

Lemma get_element_text_eq (e : Element) :
  get_element_text e = trim (String.concat "" (omap node_text (el_children e))).
Proof. unfold get_element_text, get_text. destruct (omap node_text _); reflexivity. Qed.

Lemma find_child_head (cs : list XMLNode) (n : string) :
  find_child cs n = head (elements_named cs n).
Proof.
  induction cs as [|[c| | | | ] rest IH]; simpl; try exact IH; [reflexivity|].
  destruct (String.eqb (el_name c) n); [reflexivity|exact IH].
Qed.

Lemma get_child_head (root : Element) (n : string) :
  get_child root n = head (child_elements root n).
Proof. apply find_child_head. Qed.

Lemma collect_Returned_iff {T} (from : Element -> outcome T) es ts :
  collect from es = Returned ts <-> Forall2 (fun c t => from c = Returned t) es ts.
Proof.
  revert ts. induction es as [|e rest IH]; intros ts; cbn [collect].
  - split; [intros [= <-]; constructor | intros H; inversion H; reflexivity].
  - cbn [mbind outcome_bind]. destruct (from e) as [t|s] eqn:He.
    + destruct (collect from rest) as [ts'|s] eqn:Hr; cbn [mbind outcome_bind].
      * split.
        -- intros [= <-]. constructor; [exact He|]. apply IH. reflexivity.
        -- intros H. inversion H as [|? ? ? ? Hx Hy]; subst.
           rewrite He in Hx. injection Hx as ->. apply IH in Hy. congruence.
      * split; [discriminate|]. intros H. inversion H as [|? ? ? ? Hx Hy]; subst.
        apply IH in Hy. congruence.
    + split; [discriminate|]. intros H. inversion H; subst. congruence.
Qed.

Lemma collect_Panicked_iff {T} (from : Element -> outcome T) es m :
  collect from es = Panicked m <->
  exists pre c post, es = app pre (c :: post) /\
    Forall (fun p => panicked (from p) = false) pre /\ from c = Panicked m.
Proof.
  revert m. induction es as [|e rest IH]; intros m; cbn [collect].
  - split; [discriminate|]. intros (pre & c & post & H & _). destruct pre; discriminate.
  - cbn [mbind outcome_bind]. destruct (from e) as [t|s] eqn:He; cbn [mbind outcome_bind].
    + destruct (collect from rest) as [ts|s] eqn:Hr; cbn [mbind outcome_bind].
      * split; [discriminate|]. intros (pre & c & post & Heq & Hpre & Hc).
        destruct pre as [|p pre]; simpl in Heq; injection Heq as <- Heq; [congruence|].
        assert (Hpre' : Forall (fun p => panicked (from p) = false) pre)
          by (inversion Hpre; assumption).
        assert (Returned ts = Panicked m) as Hm
          by (apply IH; exists pre, c, post; auto).
        discriminate.
      * split.
        -- intros [= <-]. destruct (proj1 (IH s) eq_refl) as (pre & c & post & Heq & Hpre & Hc).
           exists (e :: pre), c, post. rewrite Heq. split; [reflexivity|].
           split; [constructor; [rewrite He; reflexivity|exact Hpre]|exact Hc].
        -- intros (pre & c & post & Heq & Hpre & Hc).
           destruct pre as [|p pre]; simpl in Heq; injection Heq as <- Heq; [congruence|].
           assert (Hpre' : Forall (fun p => panicked (from p) = false) pre)
             by (inversion Hpre; assumption).
           assert (Panicked s = Panicked m) as Hm
             by (apply IH; exists pre, c, post; auto).
           congruence.
    + split.
      * intros [= <-]. exists [], e, rest. auto.
      * intros (pre & c & post & Heq & Hpre & Hc).
        destruct pre as [|p pre]; simpl in Heq; injection Heq as <- Heq; [congruence|].
        inversion Hpre as [|? ? Hp _]; subst. rewrite He in Hp. discriminate.
Qed.

(** The presence of an optional child: [get_child_element_as_type]
    returns [None] exactly when the child is absent. *)
Lemma as_type_None_iff {T} (from : Element -> outcome T) root n o :
  get_child_element_as_type from root n = Returned o -> (o = None <-> get_child root n = None).
Proof.
  unfold get_child_element_as_type. destruct (get_child root n); [|intros [= <-]; tauto].
  destruct (from e); cbn [mbind outcome_bind]; [intros [= <-]|discriminate]. split; congruence.
Qed.

Lemma as_type_or_panic_present {T} (from : Element -> outcome T) root n msg t :
  get_child_element_as_type_or_panic from root n msg = Returned t -> get_child root n <> None.
Proof.
  unfold get_child_element_as_type_or_panic, get_child_element_as_type.
  destruct (get_child root n); [congruence|]. discriminate.
Qed.

(* ================================================================= *)
(** ** Extra properties *)



(** X2: [get_element_text] reads only the element's own text and CDATA
    children, concatenated in document order: inserting a child element,
    a comment or a processing instruction anywhere among the children does
    not change it (the text of nested elements is not included). *)
Theorem get_element_text_reads_direct_text :
  (forall e : Element,
     get_element_text e = trim (String.concat "" (omap node_text (el_children e)))) /\
  (forall n a (cs1 : list XMLNode) (x : XMLNode) (cs2 : list XMLNode), node_text x = None ->
     get_element_text (mkElement n a (app cs1 (x :: cs2))) =
     get_element_text (mkElement n a (app cs1 cs2))).
Proof.
  split; [exact get_element_text_eq|].
  intros n a cs1 x cs2 Hx. rewrite !get_element_text_eq. cbn [el_children].
  rewrite !omap_app.
  assert (Hc : omap node_text (x :: cs2) = omap node_text cs2) by (simpl; rewrite Hx; reflexivity).
  rewrite Hc. reflexivity.
Qed.

Lemma get_element_text_reads_direct_text_witness :
  get_element_text (mkElement "name" ∅
    (app [XText " Alpha"] (XElement (el "b" [] [XText "nested"]) :: [XText "Beta "]))) =
  get_element_text (mkElement "name" ∅ (app [XText " Alpha"] [XText "Beta "])).
Proof. apply (proj2 get_element_text_reads_direct_text). reflexivity. Defined.

(** X3: the single-child accessors read the first child element with the
    name, in document order, i.e. the first of the elements the repeated
    accessor [get_text_of_child_elements] reads; the [_or_panic] text
    accessor panics, with exactly its message, only when there is no such
    child. *)
Theorem get_child_first_match (root : Element) (n : string) :
  get_child root n = head (child_elements root n) /\
  get_text_of_child_element root n = head (get_text_of_child_elements root n) /\
  (forall msg t, get_text_of_child_element_or_panic root n msg = Returned t <->
     head (get_text_of_child_elements root n) = Some t) /\
  (forall msg m, get_text_of_child_element_or_panic root n msg = Panicked m <->
     child_elements root n = [] /\ m = msg).
Proof.
  unfold get_text_of_child_element_or_panic, get_text_of_child_element,
    get_text_of_child_elements.
  rewrite get_child_head.
  destruct (child_elements root n) as [|c rest]; cbn; (split; [reflexivity|]);
    (split; [reflexivity|]); split; intros; split; intros; naive_solver.
Qed.

(** X4: [get_text_of_child_elements_as_type] returns one converted value for
    each child element with the name, in document order; otherwise it
    panics with the message of the first such child whose conversion
    panics, every child before it converting. *)
Theorem get_text_of_child_elements_as_type_outcomes {T} (from : Element -> outcome T)
    (root : Element) (n : string) :
  (forall ts, get_text_of_child_elements_as_type from root n = Returned ts <->
     Forall2 (fun c t => from c = Returned t) (child_elements root n) ts) /\
  (forall m, get_text_of_child_elements_as_type from root n = Panicked m <->
     exists pre c post, child_elements root n = app pre (c :: post) /\
       Forall (fun p => panicked (from p) = false) pre /\ from c = Panicked m).
Proof.
  split; intros; [apply collect_Returned_iff | apply collect_Panicked_iff].
Qed.

(** X5: [get_child_element_as_type] returns [None] exactly when the element
    has no child with the name, and otherwise converts the first one;
    [get_child_element_as_type_or_panic] panics with its message exactly
    when the child is absent, and with the converter's own message when
    the first such child does not convert. *)
Theorem get_child_element_as_type_outcomes {T} (from : Element -> outcome T)
    (root : Element) (n msg : string) :
  (get_child_element_as_type from root n = Returned None <-> get_child root n = None) /\
  (forall t, get_child_element_as_type from root n = Returned (Some t) <->
     exists c, get_child root n = Some c /\ from c = Returned t) /\
  (forall m, get_child_element_as_type from root n = Panicked m <->
     exists c, get_child root n = Some c /\ from c = Panicked m) /\
  (forall t, get_child_element_as_type_or_panic from root n msg = Returned t <->
     exists c, get_child root n = Some c /\ from c = Returned t) /\
  (forall m, get_child_element_as_type_or_panic from root n msg = Panicked m <->
     (get_child root n = None /\ m = msg) \/
     (exists c, get_child root n = Some c /\ from c = Panicked m)).
Proof.
  unfold get_child_element_as_type_or_panic, get_child_element_as_type.
  destruct (get_child root n) as [c|]; [destruct (from c) as [t0|s] eqn:Hc|];
    cbn [mbind outcome_bind or_panic];
    repeat split; intros;
    repeat match goal with
    | H : exists _, _ |- _ => destruct H
    | H : _ /\ _ |- _ => destruct H
    | H : _ \/ _ |- _ => destruct H
    | H : Some _ = Some _ |- _ => injection H as <-
    end;
    first [ congruence | tauto
          | eexists; split; [reflexivity|congruence]
          | left; split; congruence
          | right; eexists; split; [reflexivity|congruence] ].
Qed.

(* ================================================================= *)
(** ** Numeric fields, service information, sections *)

Lemma nonempty_last (s : string) : s <> "" -> exists r c, s = r ++ String c "".
Proof.
  induction s as [|c r IH]; [congruence|]. intros _.
  destruct r as [|c' r']; [exists "", c; reflexivity|].
  destruct IH as (r1 & c1 & H); [discriminate|].
  exists (String c r1), c1. rewrite string_app_cons, <- H. reflexivity.
Qed.

Lemma or_panic_Returned {A} (o : option A) msg a :
  or_panic o msg = Returned a -> o = Some a.
Proof. destruct o; cbn; congruence. Qed.

Lemma parse_uint_bound (bits : N) (s : string) v :
  parse_uint bits s = Some v -> (v < 2 ^ bits)%N.
Proof.
  unfold parse_uint. set (digits := match s with String "+"%char r => r | _ => s end).
  destruct digits; [discriminate|].
  destruct (parse_digits _ 0) as [w|]; [|discriminate].
  destruct (N.ltb_spec w (2 ^ bits)); congruence.
Qed.

(** A text beginning with whitespace is not a number. *)
Lemma parse_uint_leading_whitespace (bits : N) c r :
  is_whitespace c = true -> parse_uint bits (String c r) = None.
Proof.
  destruct c as [[] [] [] [] [] [] [] []]; try discriminate; reflexivity.
Qed.

(** The numeral of [n], with an optional sign, padded with whitespace,
    trims to itself. *)
Lemma trim_padded_numeral (p q sign : string) (n : N) :
  all_whitespace p = true -> all_whitespace q = true -> sign = "" \/ sign = "+" ->
  trim (p ++ (sign ++ decimal n) ++ q) = sign ++ decimal n.
Proof.
  intros Hp Hq Hs. destruct (decimal_spec n) as (_ & (c & r & Hcr & _ & Hc & _) & Hlast).
  apply trim_padded; [exact Hp|exact Hq| |].
  - intros c' r' H. destruct Hs as [->| ->].
    + rewrite string_app_nil_l, Hcr in H. injection H as <- _. exact Hc.
    + rewrite string_app_cons in H. injection H as <- _. reflexivity.
  - intros r' c' H. destruct (nonempty_last (decimal n)) as (r0 & c0 & H0);
      [rewrite Hcr; discriminate|].
    rewrite H0, <- string_app_assoc in H. rewrite <- (last_char_eq _ _ _ _ H).
    exact (Hlast r0 c0 H0).
Qed.

Lemma parse_bool_of_text (b : bool) : parse_bool (bool_text b) = Some b.
Proof. destruct b; reflexivity. Qed.

Lemma parse_bool_text (s : string) (b : bool) : parse_bool s = Some b <-> s = bool_text b.
Proof.
  split; [|intros ->; apply parse_bool_of_text].
  unfold parse_bool, bool_text.
  destruct (String.eqb_spec s "true") as [->|_]; [intros [= <-]; reflexivity|].
  destruct (String.eqb_spec s "false") as [->|_]; [intros [= <-]; reflexivity|].
  discriminate.
Qed.

Lemma bool_text_inj (b1 b2 : bool) : bool_text b1 = bool_text b2 -> b1 = b2.
Proof. destruct b1, b2; cbn; congruence. Qed.

(** X6: a [size] element holding a decimal numeral, optionally signed with
    [+] and padded with whitespace, converts to that number exactly when it
    fits in a [u8] (below 256), and panics otherwise. *)
Theorem size_reads_u8_numerals (nm : string) (a : gmap string string) (p q sign : string)
    (n : N) :
  all_whitespace p = true -> all_whitespace q = true -> sign = "" \/ sign = "+" ->
  match SizeType_from (mkElement nm a [XText (p ++ (sign ++ decimal n) ++ q)]) with
  | Returned s => size s = n /\ (n < 256)%N
  | Panicked _ => (256 <= n)%N
  end.
Proof.
  intros Hp Hq Hs. unfold SizeType_from, unwrap_parse.
  rewrite get_element_text_single, trim_padded_numeral by assumption.
  rewrite (parse_uint_decimal 8 n sign Hs).
  change (2 ^ 8)%N with 256%N.
  destruct (N.ltb_spec n 256); cbn; lia.
Qed.

Lemma size_reads_u8_numerals_witness :
  match SizeType_from (mkElement "size" ∅ [XText (" " ++ ("+" ++ decimal 200) ++ " ")]) with
  | Returned s => size s = 200%N /\ (200 < 256)%N
  | Panicked _ => (256 <= 200)%N
  end.
Proof.
  apply (size_reads_u8_numerals "size" ∅ " " " " "+" 200);
    [reflexivity|reflexivity|right; reflexivity].
Defined.

(** X7: a converted glyph's [height] and [width] are the [u16] values of
    its [height] and [width] attributes, so below 65536; with a valid
    [type] and an [alt], numerals in range convert and a numeral of 65536
    or more panics; the attribute text is not trimmed, so a value that
    begins with whitespace panics. *)
Theorem glyph_dimensions_are_u16 (e : Element) :
  (forall g, GlyphType_from e = Returned g ->
     exists h w, el_attributes e !! "height" = Some h /\ el_attributes e !! "width" = Some w /\
       parse_uint 16 h = Some (glyph_height g) /\ parse_uint 16 w = Some (glyph_width g) /\
       (glyph_height g < 65536)%N /\ (glyph_width g < 65536)%N) /\
  (forall t v n m alt,
     el_attributes e !! "type" = Some t -> GlyphTypeType_from t = Returned v ->
     el_attributes e !! "height" = Some (decimal n) ->
     el_attributes e !! "width" = Some (decimal m) -> el_attributes e !! "alt" = Some alt ->
     match GlyphType_from e with
     | Returned g => glyph_height g = n /\ glyph_width g = m /\ (n < 65536)%N /\ (m < 65536)%N
     | Panicked _ => (65536 <= n)%N \/ (65536 <= m)%N
     end) /\
  (forall t v c r,
     el_attributes e !! "type" = Some t -> GlyphTypeType_from t = Returned v ->
     el_attributes e !! "height" = Some (String c r) -> is_whitespace c = true ->
     panicked (GlyphType_from e) = true).
Proof.
  unfold GlyphType_from, get_attribute_as_type_or_panic, get_attribute_as_type,
    get_text_of_attribute_or_panic, get_text_of_attribute, unwrap_parse.
  cbv zeta. split; [|split].
  - intros g H. peel H.
    repeat match goal with H : or_panic _ _ = Returned _ |- _ => apply or_panic_Returned in H end.
    exists a0, a2. cbn. repeat split; try assumption; eapply (parse_uint_bound 16); eassumption.
  - intros t v n m alt Ht Hv Hh Hw Halt. rewrite Ht, Hv, Hh, Hw, Halt.
    pose proof (parse_uint_decimal 16 n "" (or_introl eq_refl)) as Hn.
    pose proof (parse_uint_decimal 16 m "" (or_introl eq_refl)) as Hm.
    rewrite string_app_nil_l in Hn, Hm. change (2 ^ 16)%N with 65536%N in Hn, Hm.
    cbn [mbind outcome_bind or_panic]. rewrite Hn, Hm.
    destruct (N.ltb_spec n 65536), (N.ltb_spec m 65536); cbn; lia.
  - intros t v c r Ht Hv Hh Hc. rewrite Ht, Hv, Hh.
    cbn [mbind outcome_bind or_panic]. rewrite parse_uint_leading_whitespace by exact Hc.
    reflexivity.
Qed.

Lemma glyph_dimensions_are_u16_witness :
  match GlyphType_from (glyph_el [("type", "png"); ("height", "32"); ("width", "70000");
                                  ("alt", "logo")]) with
  | Returned g => glyph_height g = 32%N /\ glyph_width g = 70000%N /\
                  (32 < 65536)%N /\ (70000 < 65536)%N
  | Panicked _ => (65536 <= 32)%N \/ (65536 <= 70000)%N
  end /\
  panicked (GlyphType_from (glyph_el [("type", "PNG"); ("height", " 32"); ("width", "32");
                                      ("alt", "logo")])) = true.
Proof.
  split.
  - apply (proj1 (proj2 (glyph_dimensions_are_u16 _)) "png" Png 32%N 70000%N "logo");
      vm_compute; reflexivity.
  - apply (proj2 (proj2 (glyph_dimensions_are_u16 _)) "PNG" Png " "%char "32");
      vm_compute; reflexivity.
Defined.

(** X8: a [connect]/[disconnect] element converts to a service entry
    exactly when its [section] attribute is the entry's section and its
    [isCallback] and [isUsed] attributes are the texts ["true"] or
    ["false"] of the entry's flags. *)
Theorem service_info_attributes (e : Element) (si : ServiceInfoType) :
  ServiceInfoType_from e = Returned si <->
  el_attributes e !! "section" = Some (si_section si) /\
  el_attributes e !! "isCallback" = Some (bool_text (si_is_callback si)) /\
  el_attributes e !! "isUsed" = Some (bool_text (si_is_used si)).
Proof.
  unfold ServiceInfoType_from, unwrap_parse.
  destruct (el_attributes e !! "section") as [sec|]; cbn [mbind outcome_bind or_panic];
    [|split; [discriminate|intros [H _]; discriminate]].
  destruct (el_attributes e !! "isCallback") as [cb|]; cbn [mbind outcome_bind or_panic];
    [|split; [discriminate|intros (_ & H & _); discriminate]].
  destruct (parse_bool cb) as [b1|] eqn:H1; cbn [mbind outcome_bind or_panic];
    [|split; [discriminate|intros (_ & [= ->] & _); rewrite parse_bool_of_text in H1;
                           discriminate]].
  destruct (el_attributes e !! "isUsed") as [us|]; cbn [mbind outcome_bind or_panic];
    [|split; [discriminate|intros (_ & _ & H); discriminate]].
  destruct (parse_bool us) as [b2|] eqn:H2; cbn [mbind outcome_bind or_panic];
    [|split; [discriminate|intros (_ & _ & [= ->]); rewrite parse_bool_of_text in H2;
                           discriminate]].
  apply parse_bool_text in H1, H2. subst cb us.
  split.
  - intros [= <-]. cbn. auto.
  - intros ([= ->] & [= Hc] & [= Hu]). apply bool_text_inj in Hc, Hu.
    destruct si; cbn in *. subst. reflexivity.
Qed.

(** X9: a converted object model has each of its required sections
    ([modelIdentification], [objects], [interactions], [dimensions],
    [transportations], [switches], [dataTypes]) as a child of the root, and
    each optional section is [None] exactly when the root has no child of
    that name. *)
Theorem object_model_sections (e : Element) (om : ObjectModelType) :
  ObjectModelType_from e = Returned om ->
  Forall (fun n => get_child e n <> None)
    ["modelIdentification"; "objects"; "interactions"; "dimensions"; "transportations";
     "switches"; "dataTypes"] /\
  (service_utilization om = None <-> get_child e "serviceUtilization" = None) /\
  (time om = None <-> get_child e "time" = None) /\
  (tags om = None <-> get_child e "tags" = None) /\
  (synchronizations om = None <-> get_child e "synchronizations" = None) /\
  (om_update_rates om = None <-> get_child e "updateRates" = None) /\
  (om_notes om = None <-> get_child e "notes" = None).
Proof.
  intros H. unfold ObjectModelType_from in H. peel H. cbn.
  split; [repeat constructor; eapply as_type_or_panic_present; eassumption|].
  repeat (split; [eapply as_type_None_iff; eassumption|]).
  eapply as_type_None_iff; eassumption.
Qed.

Lemma object_model_sections_witness :
  match ObjectModelType_from minimal_doc with
  | Returned om => service_utilization om = None /\ time om = None /\ tags om = None /\
                   synchronizations om = None /\ om_update_rates om = None /\ om_notes om = None
  | Panicked _ => False
  end.
Proof.
  destruct (ObjectModelType_from minimal_doc) as [om|msg] eqn:H;
    [|vm_compute in H; discriminate].
  destruct (object_model_sections minimal_doc om H) as (_ & Hs & Ht & Hg & Hy & Hu & Hn).
  repeat split; [apply Hs|apply Ht|apply Hg|apply Hy|apply Hu|apply Hn]; reflexivity.
Defined.

(** X10: a converted [dataTypes] element has all six catalogs. *)
Theorem data_types_catalogs_required (e : Element) (d : DataTypesType) :
  DataTypesType_from e = Returned d ->
  Forall (fun n => get_child e n <> None)
    ["basicDataRepresentations"; "simpleDataTypes"; "enumeratedDataTypes"; "arrayDataTypes";
     "fixedRecordDataTypes"; "variantRecordDataTypes"].
Proof.
  intros H. unfold DataTypesType_from in H. peel H.
  repeat constructor; eapply as_type_or_panic_present; eassumption.
Qed.

Lemma data_types_catalogs_required_witness :
  match DataTypesType_from empty_data_types with
  | Returned d => Forall (fun n => get_child empty_data_types n <> None)
      ["basicDataRepresentations"; "simpleDataTypes"; "enumeratedDataTypes"; "arrayDataTypes";
       "fixedRecordDataTypes"; "variantRecordDataTypes"]
  | Panicked _ => False
  end.
Proof.
  destruct (DataTypesType_from empty_data_types) as [d|msg] eqn:H;
    [|vm_compute in H; discriminate].
  exact (data_types_catalogs_required empty_data_types d H).
Defined.

(** X11: every entry of the [time] and [tags] sections is optional: in a
    converted section it is [None] exactly when the section element has no
    child of that name. *)
Theorem time_and_tags_entries_optional (e : Element) :
  (forall t, TimeType_from e = Returned t ->
     (time_stamp t = None <-> get_child e "timeStamp" = None) /\
     (lookahead t = None <-> get_child e "lookahead" = None)) /\
  (forall t, TagsType_from e = Returned t ->
     (update_reflect_tag t = None <-> get_child e "update_reflect_tag" = None) /\
     (send_receive_tag t = None <-> get_child e "send_receive_tag" = None) /\
     (delete_remove_tag t = None <-> get_child e "delete_remove_tag" = None) /\
     (divestiture_request_tag t = None <-> get_child e "divestiture_request_tag" = None) /\
     (divestiture_completion_tag t = None <-> get_child e "divestiture_completion_tag" = None) /\
     (acquisition_request_tag t = None <-> get_child e "acquisition_request_tag" = None) /\
     (request_update_tag t = None <-> get_child e "request_update_tag" = None)).
Proof.
  split; intros t H; [unfold TimeType_from in H|unfold TagsType_from in H]; peel H; cbn;
    repeat (split; [eapply as_type_None_iff; eassumption|]);
    eapply as_type_None_iff; eassumption.
Qed.

Lemma time_and_tags_entries_optional_witness :
  match TagsType_from send_receive_tags with
  | Returned t => update_reflect_tag t = None /\ send_receive_tag t <> None
  | Panicked _ => False
  end.
Proof.
  destruct (TagsType_from send_receive_tags) as [t|msg] eqn:H;
    [|vm_compute in H; discriminate].
  destruct (proj2 (time_and_tags_entries_optional send_receive_tags) t H)
    as (Hu & Hs & _).
  split; [apply Hu; reflexivity|]. rewrite Hs. vm_compute. discriminate.
Defined.

(** X12: the command-line tool opens its fixed file and discards the
    [Result] of [parse]: it completes normally when the file is missing or
    is not well-formed XML, and also when the document converts; it panics,
    with the conversion's message, exactly when the file parses to a root
    element whose conversion panics. *)
Theorem main_outcomes (fs : gmap string (result Element ParseError)) :
  (main fs = Returned tt <->
     forall root, fs !! fom_filename = Some (Ok root) ->
       exists om, ObjectModelType_from root = Returned om) /\
  (forall m, main fs = Panicked m <->
     exists root, fs !! fom_filename = Some (Ok root) /\ ObjectModelType_from root = Panicked m) /\
  (forall err, fs !! fom_filename = Some (Err err) -> main fs = Returned tt) /\
  (fs !! fom_filename = None -> main fs = Returned tt).
Proof.
  unfold main, parse.
  destruct (fs !! fom_filename) as [[root|err]|]; cbn [mbind outcome_bind].
  - destruct (ObjectModelType_from root) as [om|s] eqn:H; cbn [mbind outcome_bind].
    + split; [split; [intros _ r [= <-]; eauto|reflexivity]|].
      split; [intros m; split; [discriminate|intros (r & [= <-] & Hr); congruence]|].
      split; [intros err [=]|discriminate].
    + split; [split; [discriminate|intros Hall; destruct (Hall root eq_refl) as [om Hom];
                                   congruence]|].
      split; [intros m; split; [intros [= <-]; eauto|intros (r & [= <-] & Hr); congruence]|].
      split; [intros err [=]|discriminate].
  - split; [split; [intros _ r [=]|reflexivity]|].
    split; [intros m; split; [discriminate|intros (r & [=] & _)]|].
    split; [reflexivity|discriminate].
  - split; [split; [intros _ r [=]|reflexivity]|].
    split; [intros m; split; [discriminate|intros (r & [=] & _)]|].
    split; [intros err [=]|reflexivity].
Qed.

Lemma main_outcomes_witness :
  main {[ fom_filename := Err CannotParse ]} = Returned tt /\ main ∅ = Returned tt.
Proof.
  split.
  - apply (proj1 (proj2 (proj2 (main_outcomes _))) CannotParse). reflexivity.
  - apply (proj2 (proj2 (proj2 (main_outcomes _)))). reflexivity.
Defined.

(* ================================================================= *)
(** ** Class trees *)

(** Induction over elements through their child elements. *)
Lemma Element_nested_ind (P : Element -> Prop) :
  (forall n a cs, (forall c, In (XElement c) cs -> P c) -> P (mkElement n a cs)) ->
  forall e, P e.
Proof.
  intros Hel. fix IH 1. intros [n a cs]. apply Hel. revert cs.
  fix IHl 1. intros [|x rest]; [intros c []|].
  intros c [Hx|Hin]; [|exact (IHl rest c Hin)].
  destruct x as [c'| | | | ]; try discriminate.
  injection Hx as Hx. rewrite <- Hx. exact (IH c').
Qed.

Lemma elements_named_In (cs : list XMLNode) (n : string) c :
  In c (elements_named cs n) -> In (XElement c) cs.
Proof.
  induction cs as [|[c'| | | | ] rest IH]; cbn; try tauto.
  destruct (String.eqb (el_name c') n); cbn; [|tauto].
  intros [->|H]; auto.
Qed.

Lemma concat_map_Forall2 {A B C} (f : A -> list C) (g : B -> list C) (R : A -> B -> Prop)
    (la : list A) (lb : list B) :
  Forall2 R la lb -> (forall a b, In a la -> R a b -> g b = f a) ->
  List.concat (map g lb) = List.concat (map f la).
Proof.
  induction 1 as [|a b la lb Hab _ IH]; intros Hfg; [reflexivity|]. cbn.
  rewrite (Hfg a b (or_introl eq_refl) Hab), IH; [reflexivity|].
  intros a' b' Hin. apply Hfg. right. exact Hin.
Qed.

Lemma none_if_empty_concat {A B} (f : A -> list B) (l : list A) :
  match none_if_empty l with Some ks => List.concat (map f ks) | None => [] end =
  List.concat (map f l).
Proof. destruct l; reflexivity. Qed.

Lemma nested_element_names_eq (tag : string) (e : Element) :
  nested_element_names tag e =
    match get_text_of_child_element e "name" with Some n => n | None => "" end ::
    List.concat (map (nested_element_names tag) (child_elements e tag)).
Proof.
  destruct e as [n a cs]. cbn [nested_element_names]. f_equal.
  unfold child_elements. cbn [el_children].
  match goal with |- ?F cs = _ =>
    assert (HF : forall l, F l = List.concat (map (nested_element_names tag) (elements_named l tag)));
    [ induction l as [|[c| | | | ] rest IH]; cbn -[nested_element_names]; try exact IH;
      [ reflexivity
      | destruct (String.eqb (el_name c) tag); cbn -[nested_element_names];
        [rewrite IH|exact IH]; reflexivity ]
    | ]
  end.
  apply HF.
Qed.

Lemma interaction_preorder_names_eq n s d t o se p kids :
  interaction_preorder_names (mkInteractionClassType n s d t o se p kids) =
  n :: match kids with Some ks => List.concat (map interaction_preorder_names ks) | None => [] end.
Proof.
  destruct kids as [ks|]; [|reflexivity]. cbn [interaction_preorder_names]. f_equal.
  induction ks as [|k ks IH]; [reflexivity|]. cbn. f_equal. exact IH.
Qed.

Lemma preorder_names_eq n s se ats kids :
  preorder_names (mkObjectClassType n s se ats kids) =
  n :: match kids with Some ks => List.concat (map preorder_names ks) | None => [] end.
Proof.
  destruct kids as [ks|]; [|reflexivity]. cbn [preorder_names]. f_equal.
  induction ks as [|k ks IH]; [reflexivity|]. cbn. f_equal. exact IH.
Qed.

(** The unfolding of [InteractionClassType_from]: its nested classes are
    [get_text_of_child_elements_as_type] over the children named
    ["interactionClass"]. *)
Lemma InteractionClassType_from_eq (e : Element) :
  InteractionClassType_from e =
    (name ← get_text_of_child_element_or_panic e "name"
       "No 'objectModel -> interactions -> interactionClass -> name' found";
     sharing ← get_child_element_as_type_or_panic SharingType_from e "sharing"
       "No 'objectModel -> interactions -> interactionClass -> sharing' found";
     dimensions ← get_text_of_child_elements_as_type ReferenceType_from e "dimension";
     transportation ← get_child_element_as_type_or_panic ReferenceType_from e "transportation"
       "No 'objectModel -> interactions -> interactionClass -> transportation' found";
     order ← get_child_element_as_type_or_panic OrderType_from e "order"
       "No 'objectModel -> interactions -> interactionClass -> order";
     let semantics := get_text_of_child_element e "semantics" in
     parameters ← get_text_of_child_elements_as_type ParameterType_from e "parameter";
     interaction_classes ← get_text_of_child_elements_as_type InteractionClassType_from e
       "interactionClass";
     Returned {| ic_name := name; ic_sharing := sharing;
                 ic_dimensions := none_if_empty dimensions;
                 ic_transportation := transportation; ic_order := order;
                 ic_semantics := semantics; ic_parameters := none_if_empty parameters;
                 ic_interaction_classes := none_if_empty interaction_classes |}).
Proof.
  destruct e as [n a cs]. cbn [InteractionClassType_from].
  match goal with |- context [?F cs] =>
    assert (HF : forall l, F l = collect InteractionClassType_from
                                   (elements_named l "interactionClass"));
    [ induction l as [|[c| | | | ] rest IH]; cbn -[InteractionClassType_from]; try exact IH;
      [ reflexivity
      | destruct (String.eqb (el_name c) "interactionClass"); cbn -[InteractionClassType_from];
        [rewrite IH|exact IH]; reflexivity ]
    | ]
  end.
  rewrite HF. reflexivity.
Qed.

Lemma text_child_Returned (e : Element) n msg s :
  get_child_element_as_type_or_panic text_from e n msg = Returned s ->
  get_text_of_child_element e n = Some s.
Proof.
  unfold get_child_element_as_type_or_panic, get_child_element_as_type,
    get_text_of_child_element.
  destruct (get_child e n); cbn; congruence.
Qed.

(** X13: an interaction-class element converts node for node: the
    pre-order names of the converted tree are the names of the element and
    of the [interactionClass] elements nested in it, at any depth, in
    document order. *)
Theorem interaction_class_tree_preserved (e : Element) (ic : InteractionClassType) :
  InteractionClassType_from e = Returned ic ->
  interaction_preorder_names ic = nested_element_names "interactionClass" e.
Proof.
  revert ic. induction e as [n a cs IH] using Element_nested_ind. intros ic H.
  rewrite InteractionClassType_from_eq in H. cbv zeta in H. peel H.
  rewrite interaction_preorder_names_eq, nested_element_names_eq.
  match goal with Hn : get_text_of_child_element_or_panic _ "name" _ = Returned _ |- _ =>
    apply or_panic_Returned in Hn; rewrite Hn end.
  f_equal. rewrite none_if_empty_concat.
  match goal with Hk : get_text_of_child_elements_as_type InteractionClassType_from _ _ =
                       Returned _ |- _ =>
    apply collect_Returned_iff in Hk; apply (concat_map_Forall2 _ _ _ _ _ Hk) end.
  intros c t Hin Hc. apply (IH c); [|exact Hc].
  exact (elements_named_In _ _ _ Hin).
Qed.

Lemma interaction_class_tree_preserved_witness :
  match InteractionClassType_from depth3_interaction_root with
  | Returned ic => interaction_preorder_names ic =
                   nested_element_names "interactionClass" depth3_interaction_root
  | Panicked _ => False
  end.
Proof.
  destruct (InteractionClassType_from depth3_interaction_root) as [ic|msg] eqn:H;
    [|vm_compute in H; discriminate].
  exact (interaction_class_tree_preserved depth3_interaction_root ic H).
Defined.

(** X14: an object-class element converts node for node along its
    [objectClasses] children: the pre-order names of the converted tree
    are the names of the element and of the [objectClasses] elements
    nested in it, at any depth, in document order. *)
Theorem object_class_tree_follows_objectClasses (e : Element) (c : ObjectClassType) :
  ObjectClassType_from e = Returned c ->
  preorder_names c = nested_element_names "objectClasses" e.
Proof.
  revert c. induction e as [n a cs IH] using Element_nested_ind. intros oc H.
  rewrite ObjectClassType_from_eq in H. peel H.
  rewrite preorder_names_eq, nested_element_names_eq.
  match goal with Hn : get_child_element_as_type_or_panic text_from _ "name" _ = Returned _
                  |- _ => apply text_child_Returned in Hn; rewrite Hn end.
  f_equal. rewrite none_if_empty_concat.
  match goal with Hk : get_text_of_child_elements_as_type ObjectClassType_from _ _ =
                       Returned _ |- _ =>
    apply collect_Returned_iff in Hk; apply (concat_map_Forall2 _ _ _ _ _ Hk) end.
  intros c t Hin Hc. apply (IH c); [|exact Hc].
  exact (elements_named_In _ _ _ Hin).
Qed.

Lemma object_class_tree_follows_objectClasses_witness :
  match ObjectClassType_from depth3_object_classes_root with
  | Returned c => preorder_names c =
                  nested_element_names "objectClasses" depth3_object_classes_root
  | Panicked _ => False
  end.
Proof.
  destruct (ObjectClassType_from depth3_object_classes_root) as [c|msg] eqn:H;
    [|vm_compute in H; discriminate].
  exact (object_class_tree_follows_objectClasses depth3_object_classes_root c H).
Defined.

(* ================================================================= *)
(** ** Closed vocabularies of the class, POC, switch and encoding fields *)

Ltac unfold_closed_fields :=
  unfold SharingType_from, UpdateType_from, OwnershipType_from, PocTypeType_from,
    ArrayDataTypeEncodingType_from, FixedRecordEncodingType_from,
    VariantRecordEncodingType_from, ResignSwitchType_from.

(** X15: the sharing, update-type, ownership, POC-type, resign-action and
    data-type encoding converters are closed: each returns a variant
    exactly when the text (the trimmed element text, or the attribute text
    for the resign action) is that variant's token in its fixed table, and
    panics, naming the text, on any other token. *)
Theorem closed_field_vocabularies :
  (forall (e : Element) (v : SharingType),
     SharingType_from e = Returned v <-> In (get_element_text e, v) SharingType_arms) /\
  (forall e : Element, ~ In (get_element_text e) (map fst SharingType_arms) ->
     SharingType_from e = Panicked ("Unknown sharing type: " ++ get_element_text e)) /\
  (forall (e : Element) (v : UpdateType),
     UpdateType_from e = Returned v <-> In (get_element_text e, v) UpdateType_arms) /\
  (forall e : Element, ~ In (get_element_text e) (map fst UpdateType_arms) ->
     UpdateType_from e = Panicked ("Unknown UpdateType: " ++ get_element_text e)) /\
  (forall (e : Element) (v : OwnershipType),
     OwnershipType_from e = Returned v <-> In (get_element_text e, v) OwnershipType_arms) /\
  (forall e : Element, ~ In (get_element_text e) (map fst OwnershipType_arms) ->
     OwnershipType_from e = Panicked ("Unknown OwnershipType: " ++ get_element_text e)) /\
  (forall (e : Element) (v : PocTypeType),
     PocTypeType_from e = Returned v <-> In (get_element_text e, v) PocTypeType_arms) /\
  (forall e : Element, ~ In (get_element_text e) (map fst PocTypeType_arms) ->
     PocTypeType_from e =
       Panicked ("Unknown 'modelIdentification -> poc -> pocType': " ++ get_element_text e)) /\
  (forall (e : Element) (v : ArrayDataTypeEncodingType),
     ArrayDataTypeEncodingType_from e = Returned v <->
     In (get_element_text e, v) ArrayDataTypeEncodingType_arms) /\
  (forall e : Element, ~ In (get_element_text e) (map fst ArrayDataTypeEncodingType_arms) ->
     ArrayDataTypeEncodingType_from e =
       Panicked ("Unknown array data type encoding: " ++ get_element_text e)) /\
  (forall (e : Element) (v : FixedRecordEncodingType),
     FixedRecordEncodingType_from e = Returned v <->
     In (get_element_text e, v) FixedRecordEncodingType_arms) /\
  (forall e : Element, ~ In (get_element_text e) (map fst FixedRecordEncodingType_arms) ->
     FixedRecordEncodingType_from e =
       Panicked ("Unknown fixed record encoding: " ++ get_element_text e)) /\
  (forall (e : Element) (v : VariantRecordEncodingType),
     VariantRecordEncodingType_from e = Returned v <->
     In (get_element_text e, v) VariantRecordEncodingType_arms) /\
  (forall e : Element, ~ In (get_element_text e) (map fst VariantRecordEncodingType_arms) ->
     VariantRecordEncodingType_from e =
       Panicked ("Unknown variant record encoding: " ++ get_element_text e)) /\
  (forall (s : string) (v : ResignSwitchType),
     ResignSwitchType_from s = Returned v <-> In (s, v) ResignSwitchType_arms) /\
  (forall s : string, ~ In s (map fst ResignSwitchType_arms) ->
     ResignSwitchType_from s = Panicked ("Unknown resign switch type: " ++ s)).
Proof.
  do 7 (split; [intros e v; apply (closed_match_token_iff _ _ (fun t => _)); nodup_tokens|];
        split; [intros e Hn; unfold_closed_fields; rewrite match_token_miss by exact Hn;
                reflexivity|]).
  split; [intros s v; apply (closed_match_token_iff _ _ (fun t => _)); nodup_tokens|].
  intros s Hn. unfold_closed_fields. rewrite match_token_miss by exact Hn. reflexivity.
Qed.

Lemma closed_field_vocabularies_witness :
  SharingType_from (el "sharing" [] [XText "publish"]) = Panicked "Unknown sharing type: publish" /\
  ArrayDataTypeEncodingType_from (el "encoding" [] [XText "HLAdynamicArray"]) =
    Panicked "Unknown array data type encoding: HLAdynamicArray" /\
  ResignSwitchType_from "Divest" = Panicked "Unknown resign switch type: Divest".
Proof.
  destruct closed_field_vocabularies
    as (_ & Hsh & _ & _ & _ & _ & _ & _ & _ & Har & _ & _ & _ & _ & _ & Hrs).
  split; [apply (Hsh (el "sharing" [] [XText "publish"])); vm_compute; intuition discriminate|].
  split; [apply (Har (el "encoding" [] [XText "HLAdynamicArray"]));
          vm_compute; intuition discriminate|].
  apply Hrs. vm_compute. intuition discriminate.
Defined.

(* ================================================================= *)
(** ** Absent versus empty repeated groups, all of them *)






